(** * Bedrock model lister: a shallow embedding of
    [scripts/bedrock_list_models_region.py] and the properties of its
    specification.

    Conventions of the embedding.
    - A Python [str] is a [string]; the identifiers handled by the script are
      ASCII text, and the case functions below act on the ASCII letters only.
    - A Python [dict] that is read with [.get(key, default)] is a record whose
      fields are options ([None] = key absent).
    - The dict [cri_models] is an association list in insertion order.
    - An output stream is the list of the texts handed to [print], oldest
      first; [print] ends each of them with a newline. *)

From Stdlib Require Import List Bool Arith Lia ZArith.
From Stdlib Require Import Ascii String DecimalString.
From Stdlib Require Import Sorted Permutation.
Import ListNotations.

Local Open Scope list_scope.
Local Open Scope string_scope.

(** ** Python string primitives *)

Module PyStr.

(** [s.split(sep)] for a separator of one character. The result is never
    empty: a string without the separator is returned as its only part. *)
Fixpoint split (sep : ascii) (s : string) : list string :=
  match s with
  | EmptyString => [EmptyString]
  | String c rest =>
      if Ascii.eqb c sep then EmptyString :: split sep rest
      else match split sep rest with
           | [] => [String c EmptyString]
           | part :: parts => String c part :: parts
           end
  end.

(** [sep.join(parts)]. *)
Definition join (sep : string) (parts : list string) : string :=
  String.concat sep parts.

(** [s.startswith(p)]. *)
Definition startswith (s p : string) : bool := String.prefix p s.

(** [s[n:]]. *)
Fixpoint slice_from (n : nat) (s : string) : string :=
  match n, s with
  | O, _ => s
  | S _, EmptyString => EmptyString
  | S n', String _ rest => slice_from n' rest
  end.

(** [s[:-1]]. *)
Fixpoint drop_last (s : string) : string :=
  match s with
  | EmptyString => EmptyString
  | String _ EmptyString => EmptyString
  | String c rest => String c (drop_last rest)
  end.

Definition is_lower (c : ascii) : bool :=
  let n := nat_of_ascii c in ((97 <=? n) && (n <=? 122))%nat.

Definition is_upper (c : ascii) : bool :=
  let n := nat_of_ascii c in ((65 <=? n) && (n <=? 90))%nat.

Definition to_upper (c : ascii) : ascii :=
  if is_lower c then ascii_of_nat (nat_of_ascii c - 32) else c.

Definition to_lower (c : ascii) : ascii :=
  if is_upper c then ascii_of_nat (nat_of_ascii c + 32) else c.

(** [s.upper()]. *)
Fixpoint upper (s : string) : string :=
  match s with
  | EmptyString => EmptyString
  | String c rest => String (to_upper c) (upper rest)
  end.

(** [s.title()]: a letter that follows a letter is lower-cased, any other
    letter is upper-cased. [previous_is_cased] is the flag of CPython's
    loop. *)
Fixpoint title_from (previous_is_cased : bool) (s : string) : string :=
  match s with
  | EmptyString => EmptyString
  | String c rest =>
      if is_lower c then
        String (if previous_is_cased then c else to_upper c) (title_from true rest)
      else if is_upper c then
        String (if previous_is_cased then to_lower c else c) (title_from true rest)
      else String c (title_from false rest)
  end.

Definition title (s : string) : string := title_from false s.

(** ["c" * n]. *)
Fixpoint repeat_char (c : ascii) (n : nat) : string :=
  match n with
  | O => EmptyString
  | S n' => String c (repeat_char c n')
  end.

(** [f"{s:<width}"]: left-justified, padded with spaces, never truncated. *)
Definition ljust (width : nat) (s : string) : string :=
  s ++ repeat_char " " (width - String.length s).

(** [str(n)] for a length. *)
Definition str_of_nat (n : nat) : string :=
  NilEmpty.string_of_uint (Nat.to_uint n).

(** Truth value of an object that is [None] or a [str]. *)
Definition truthy (o : option string) : bool :=
  match o with
  | None => false
  | Some s => negb (s =? "")
  end.

(** [str(o)] inside an f-string, for an object that is [None] or a [str]. *)
Definition show (o : option string) : string :=
  match o with
  | None => "None"
  | Some s => s
  end.

(** [x in xs] for a list of strings. *)
Definition mem (x : string) (xs : list string) : bool :=
  existsb (String.eqb x) xs.

(** No occurrence of the character [c] in [s]. *)
Fixpoint free_of (c : ascii) (s : string) : bool :=
  match s with
  | EmptyString => true
  | String d rest => negb (Ascii.eqb d c) && free_of c rest
  end.

End PyStr.

(** ** The two pure helpers of the script *)

Definition context_window_suffixes : list string :=
  ["28k"; "200k"; "8k"; "48k"; "12k"; "512"; "24k"; "300k"; "128k"; "1000k"; "mm"].

Definition get_base_model_id (model_id : string) : string :=
  let parts := PyStr.split ":" model_id in
  if (1 <? List.length parts)%nat then
    let last_part := List.last parts "" in
    if PyStr.mem last_part context_window_suffixes
    then PyStr.join ":" (List.removelast parts)
    else model_id
  else model_id.

Definition cri_prefixes : list string := ["us."; "eu."; "jp."; "au."; "global."].

(** The [for prefix in prefixes] loop of [extract_cri_info]; falling out of
    the loop returns [(None, None)]. *)
Fixpoint extract_cri_loop (prefixes : list string) (profile_id : string)
  : option string * option string :=
  match prefixes with
  | [] => (None, None)
  | prefix :: prefixes' =>
      if PyStr.startswith profile_id prefix then
        let cri_type := PyStr.upper (PyStr.drop_last prefix) in
        let base_id := PyStr.slice_from (String.length prefix) profile_id in
        (Some cri_type, Some base_id)
      else extract_cri_loop prefixes' profile_id
  end.

Definition extract_cri_info (profile_id : string) : option string * option string :=
  extract_cri_loop cri_prefixes profile_id.

(** ** Python dictionaries with string keys and values *)

Module PyDict.

(** Items in insertion order; every key occurs once. *)
Definition t : Type := list (string * string).

Definition empty : t := [].

(** [d[k] = v]: a key already present keeps its place and takes the new
    value, a new key goes last. *)
Fixpoint set (k v : string) (d : t) : t :=
  match d with
  | [] => [(k, v)]
  | (k', v') :: d' => if k' =? k then (k, v) :: d' else (k', v') :: set k v d'
  end.

(** [d.get(k, default)]. *)
Fixpoint get (k : string) (d : t) (default : string) : string :=
  match d with
  | [] => default
  | (k', v') :: d' => if k' =? k then v' else get k d' default
  end.

(** [k in d]. *)
Definition mem (k : string) (d : t) : bool :=
  existsb (fun kv => fst kv =? k) d.

(** [d.items()] and the keys in iteration order. *)
Definition items (d : t) : list (string * string) := d.
Definition keys (d : t) : list string := map fst d.

(** [repr] of a character inside a string literal delimited by [quote]. *)
Definition hex_digit (n : nat) : ascii :=
  if (n <? 10)%nat then ascii_of_nat (48 + n) else ascii_of_nat (87 + n).

Definition repr_char (quote c : ascii) : string :=
  let n := nat_of_ascii c in
  if Ascii.eqb c quote || Ascii.eqb c "\"%char then String "\" (String c "")
  else if (n =? 9)%nat then "\t"
  else if (n =? 10)%nat then "\n"
  else if (n =? 13)%nat then "\r"
  else if (n <? 32)%nat || (n =? 127)%nat then
    String "\" (String "x" (String (hex_digit (n / 16)) (String (hex_digit (n mod 16)) "")))
  else String c "".

Fixpoint repr_chars (quote : ascii) (s : string) : string :=
  match s with
  | EmptyString => EmptyString
  | String c rest => repr_char quote c ++ repr_chars quote rest
  end.

(** [repr(s)]: single quotes, unless the text has a single quote and no
    double quote. *)
Definition repr_str (s : string) : string :=
  let single := "'"%char in
  let double := "034"%char in
  let quote :=
    if negb (PyStr.free_of single s) && PyStr.free_of double s then double else single in
  String quote (repr_chars quote s ++ String quote "").

(** [repr(d)], as an f-string shows a dict. *)
Definition repr (d : t) : string :=
  "{" ++ PyStr.join ", " (map (fun kv => repr_str (fst kv) ++ ": " ++ repr_str (snd kv)) d) ++ "}".

End PyDict.

(** ** Output streams, exceptions, [return] and [sys.exit] *)

Module Py.

Record Streams : Type := mkStreams {
  stdout : list string;
  stderr : list string
}.

Definition no_output : Streams := mkStreams [] [].

(** How a block of statements ends: it falls through with a value, the
    enclosing function executes [return], an exception with the given
    message propagates, or [sys.exit(code)] unwinds the process. *)
Inductive Completion (A : Type) : Type :=
| Normal (a : A)
| Returned
| Raised (message : string)
| SysExit (code : Z).

Arguments Normal {A} a.
Arguments Returned {A}.
Arguments Raised {A} message.
Arguments SysExit {A} code.

Definition M (A : Type) : Type := Streams -> Completion A * Streams.

Definition ret {A} (a : A) : M A := fun w => (Normal a, w).

Definition bind {A B} (c : M A) (k : A -> M B) : M B :=
  fun w =>
    match c w with
    | (Normal a, w') => k a w'
    | (Returned, w') => (Returned, w')
    | (Raised e, w') => (Raised e, w')
    | (SysExit n, w') => (SysExit n, w')
    end.

(** [print(text)] and [print(text, file=sys.stderr)]. *)
Definition print (text : string) : M unit :=
  fun w => (Normal tt, mkStreams (stdout w ++ [text])%list (stderr w)).

Definition print_err (text : string) : M unit :=
  fun w => (Normal tt, mkStreams (stdout w) (stderr w ++ [text])%list).

Definition raise {A} (message : string) : M A := fun w => (Raised message, w).
Definition return_ {A} : M A := fun w => (Returned, w).
Definition sys_exit {A} (code : Z) : M A := fun w => (SysExit code, w).

(** [try: body / except Exception as e: handler]. [SystemExit] is not an
    [Exception] and a [return] leaves the [try] block untouched. *)
Definition try_except {A} (body : M A) (handler : string -> M A) : M A :=
  fun w =>
    match body w with
    | (Raised e, w') => handler e w'
    | other => other
    end.

(** [if b: c]. *)
Definition when (b : bool) (c : M unit) : M unit :=
  if b then c else ret tt.

(** A [for] loop that updates the local [acc]. *)
Fixpoint for_each {A S} (xs : list A) (acc : S) (body : S -> A -> M S) : M S :=
  match xs with
  | [] => ret acc
  | x :: xs' => bind (body acc x) (fun acc' => for_each xs' acc' body)
  end.

(** The body of a [def] that returns [None]: [return] ends the call. *)
Definition def (body : M unit) : M unit :=
  fun w =>
    match body w with
    | (Returned, w') => (Normal tt, w')
    | other => other
    end.

(** Exit status of the interpreter after running the script's last call:
    0 when it comes back, the given code after [sys.exit], 1 after an
    exception nobody caught. *)
Definition exit_code {A} (r : Completion A) : Z :=
  match r with
  | Normal _ | Returned => 0%Z
  | Raised _ => 1%Z
  | SysExit code => code
  end.

End Py.

Notation "x <- c1 ;; c2" := (Py.bind c1 (fun x => c2))
  (at level 61, c1 at next level, right associativity).
Notation "c1 ;; c2" := (Py.bind c1 (fun _ => c2))
  (at level 61, right associativity).

(** ** Data model: the records of the catalog service *)

(** An entry of ["modelSummaries"]; the script reads each key with [.get]. *)
Record ModelSummary : Type := mkModel {
  modelId : option string;
  providerName : option string;
  inputModalities : option (list string);
  outputModalities : option (list string)
}.

(** An entry of ["inferenceProfileSummaries"]. *)
Record InferenceProfileSummary : Type := mkProfile {
  inferenceProfileId : option string
}.

Record FoundationModelsResponse : Type := mkModelsResponse {
  modelSummaries : option (list ModelSummary)
}.

Record InferenceProfilesResponse : Type := mkProfilesResponse {
  inferenceProfileSummaries : option (list InferenceProfileSummary)
}.

(** What a call of the service client does: it hands back a response or
    raises an exception whose [str] is the given message. *)
Inductive ApiResult (A : Type) : Type :=
| ApiOk (response : A)
| ApiError (message : string).

Arguments ApiOk {A} response.
Arguments ApiError {A} message.

(** The region-scoped client, as far as the script uses it: the outcome of
    each of its two read operations. Building the client (line 30) happens
    before the [try] block and is taken to have succeeded. *)
Record BedrockClient : Type := mkClient {
  list_foundation_models : ApiResult FoundationModelsResponse;
  list_inference_profiles : ApiResult InferenceProfilesResponse
}.

Definition call {A} (r : ApiResult A) : Py.M A :=
  match r with
  | ApiOk response => Py.ret response
  | ApiError message => Py.raise message
  end.

(** [record.get(key, default)]. *)
Definition get_or {A} (field : option A) (default : A) : A :=
  match field with
  | Some a => a
  | None => default
  end.

(** ** Sorting: [list.sort(key=...)] *)

(** [a < b] on pairs of strings, as Python compares tuples: the first
    components decide unless they are equal. *)
Definition tuple_lt (a b : string * string) : bool :=
  if fst a =? fst b then snd a <? snd b else fst a <? fst b.

Section ListSort.

Context {A : Type} (key : A -> string * string).

(** [x] goes in front of the first element whose key is not below its own,
    so elements with equal keys keep their order. *)
Fixpoint insert_by (x : A) (l : list A) : list A :=
  match l with
  | [] => [x]
  | y :: l' => if tuple_lt (key y) (key x) then y :: insert_by x l' else x :: l
  end.

(** [list.sort] is a stable sort that compares keys with [<] only. *)
Fixpoint sort_by (l : list A) : list A :=
  match l with
  | [] => []
  | x :: l' => insert_by x (sort_by l')
  end.

End ListSort.

(** ** The main operation *)

Definition newline : string := String "010" "".

(** The dict literal appended for a model known from its profile only. *)
Definition cri_only_model (cri_model_id : string) : ModelSummary :=
  mkModel (Some cri_model_id)
          (Some (PyStr.title (List.hd "" (PyStr.split "." cri_model_id))))
          (Some [])
          (Some []).

(** The loop over [profiles_response], lines 42-48. *)
Definition record_profile (debug : bool) (cri_models : PyDict.t)
    (profile : InferenceProfileSummary) : Py.M PyDict.t :=
  let profile_id := get_or (inferenceProfileId profile) "" in
  let (cri_type, base_id) := extract_cri_info profile_id in
  Py.when debug
    (Py.print_err ("DEBUG: profile_id=" ++ profile_id ++
                   ", cri_type=" ++ PyStr.show cri_type ++
                   ", base_id=" ++ PyStr.show base_id)) ;;
  match cri_type, base_id with
  | Some cri_type', Some base_id' =>
      if PyStr.truthy cri_type && PyStr.truthy base_id
      then Py.ret (PyDict.set base_id' cri_type' cri_models)
      else Py.ret cri_models
  | _, _ => Py.ret cri_models
  end.

(** The loop that combines native and CRI-only models, lines 57-66. *)
Definition combine_models (native_models : list ModelSummary)
    (native_model_ids : list string) (cri_models : PyDict.t) : list ModelSummary :=
  fold_left
    (fun all_models item =>
       let cri_model_id := fst item in
       if negb (PyStr.mem cri_model_id native_model_ids)
       then (all_models ++ [cri_only_model cri_model_id])%list
       else all_models)
    (PyDict.items cri_models)
    native_models.

Definition sort_key (m : ModelSummary) : string * string :=
  (get_or (providerName m) "", get_or (modelId m) "").

Definition table_header : string :=
  PyStr.ljust 50 "Model ID" ++ " " ++ PyStr.ljust 15 "Provider" ++ " " ++
  PyStr.ljust 12 "CRI Type" ++ " " ++ PyStr.ljust 8 "Input" ++ " " ++
  PyStr.ljust 8 "Output".

(** The text printed for one model, lines 90-96. *)
Definition table_row (cri_models : PyDict.t) (model : ModelSummary) : string :=
  let model_id := get_or (modelId model) "N/A" in
  let provider := get_or (providerName model) "N/A" in
  let cri_type := PyDict.get model_id cri_models "-" in
  let input_modalities := PyStr.join ", " (get_or (inputModalities model) []) in
  let output_modalities := PyStr.join ", " (get_or (outputModalities model) []) in
  PyStr.ljust 50 model_id ++ " " ++ PyStr.ljust 15 provider ++ " " ++
  PyStr.ljust 12 cri_type ++ " " ++ PyStr.ljust 8 input_modalities ++ " " ++
  PyStr.ljust 8 output_modalities.

Definition is_empty {A} (l : list A) : bool :=
  match l with
  | [] => true
  | _ :: _ => false
  end.

(** The best-effort block that fills [cri_models], lines 39-51. An
    exception can only come from the service call, before the first entry
    is recorded, so the handler goes on with the empty dict. *)
Definition build_cri_models (client : BedrockClient) (debug : bool) : Py.M PyDict.t :=
  Py.try_except
    (profiles_response <- call (list_inference_profiles client) ;;
     Py.for_each (get_or (inferenceProfileSummaries profiles_response) [])
                 PyDict.empty (record_profile debug))
    (fun e =>
       Py.when debug (Py.print_err ("DEBUG: Error getting profiles: " ++ e)) ;;
       Py.ret PyDict.empty).

(** The rendering block, lines 84-99. *)
Definition print_table (cri_models : PyDict.t) (title : string)
    (models : list ModelSummary) : Py.M unit :=
  Py.print (newline ++ title) ;;
  Py.print (PyStr.repeat_char "=" 130) ;;
  Py.print table_header ;;
  Py.print (PyStr.repeat_char "-" 130) ;;
  Py.for_each models tt
    (fun _ model => Py.print (table_row cri_models model)) ;;
  Py.print (PyStr.repeat_char "-" 130) ;;
  Py.print ("Total models: " ++ PyStr.str_of_nat (List.length models) ++ newline).

Definition no_cri_message (region : string) : string :=
  "No models with Cross-Region Inference available in region: " ++ region.

Definition no_models_message (region : string) : string :=
  "No models found in region: " ++ region.

Definition cri_title (region : string) : string :=
  "Cross-Region Inference Models in Amazon Bedrock - Region: " ++ region.

Definition full_title (region : string) : string :=
  "Foundation Models in Amazon Bedrock - Region: " ++ region.

(** [m.get("modelId", "")], the identifier under which a model is looked
    up in [native_model_ids] and in [cri_models]. *)
Definition model_key (m : ModelSummary) : string := get_or (modelId m) "".

(** Lines 28-103. The set [native_model_ids] is only tested for membership
    and is kept as the list of its elements. *)
Definition list_bedrock_models (client : BedrockClient) (region : string)
    (show_cross_region_only debug : bool) : Py.M unit :=
  Py.def
    (Py.try_except
       (response <- call (list_foundation_models client) ;;
        let native_models := get_or (modelSummaries response) [] in
        let native_model_ids := map model_key native_models in
        cri_models <- build_cri_models client debug ;;
        Py.when debug
          (Py.print_err ("DEBUG: Found " ++ PyStr.str_of_nat (List.length cri_models) ++
                         " CRI models: " ++ PyDict.repr cri_models)) ;;
        let all_models := combine_models native_models native_model_ids cri_models in
        selection <-
          (if show_cross_region_only then
             let models :=
               filter (fun m => PyDict.mem (model_key m) cri_models) all_models in
             Py.when (is_empty models)
               (Py.print (no_cri_message region) ;; Py.return_) ;;
             Py.ret (models, cri_title region)
           else
             Py.ret (all_models, full_title region)) ;;
        let models := fst selection in
        let title := snd selection in
        Py.when (is_empty models)
          (Py.print (no_models_message region) ;; Py.return_) ;;
        let models := sort_by sort_key models in
        print_table cri_models title models)
       (fun e =>
          Py.print_err ("Error listing models: " ++ e) ;;
          Py.sys_exit 1%Z)).

(** Running the script's call from a fresh process. *)
Definition run (client : BedrockClient) (region : string)
    (show_cross_region_only debug : bool) : Py.Completion unit * Py.Streams :=
  list_bedrock_models client region show_cross_region_only debug Py.no_output.

(** ** Notions used in the statements *)

(** The value a block computes, read off a run that prints nothing
    before it. *)
Definition value_of {A} (c : Py.M A) (default : A) : A :=
  match fst (c Py.no_output) with
  | Py.Normal a => a
  | _ => default
  end.

(** The mapping [cri_models] that the operation builds for a client. *)
Definition cri_models_of (client : BedrockClient) : PyDict.t :=
  value_of (build_cri_models client false) PyDict.empty.

(** The list [native_models] of a response and the list [all_models] the
    operation derives from it. *)
Definition native_models_of (response : FoundationModelsResponse) : list ModelSummary :=
  get_or (modelSummaries response) [].

Definition all_models_of (client : BedrockClient)
    (response : FoundationModelsResponse) : list ModelSummary :=
  let native_models := native_models_of response in
  combine_models native_models (map model_key native_models) (cri_models_of client).

(** The list [models] after the selection of lines 68-76. *)
Definition selected_models (client : BedrockClient)
    (response : FoundationModelsResponse) (show_cross_region_only : bool)
  : list ModelSummary :=
  if show_cross_region_only
  then filter (fun m => PyDict.mem (model_key m) (cri_models_of client))
              (all_models_of client response)
  else all_models_of client response.

(** The lines of a table, top to bottom. *)
Definition table_lines (cri_models : PyDict.t) (title : string)
    (models : list ModelSummary) : list string :=
  List.app
    [newline ++ title; PyStr.repeat_char "=" 130; table_header; PyStr.repeat_char "-" 130]
    (List.app
       (map (table_row cri_models) models)
       [PyStr.repeat_char "-" 130;
        "Total models: " ++ PyStr.str_of_nat (List.length models) ++ newline]).

(** Ascending order on sort keys: by the first component, and by the second
    among equal first components, each in the order of the character codes. *)
Definition key_le (a b : string * string) : Prop :=
  (fst a <? fst b) = true \/ (fst a = fst b /\ (snd a <=? snd b) = true).

(** The part of an identifier in front of its first dot. *)
Fixpoint first_dot_segment (s : string) : string :=
  match s with
  | EmptyString => EmptyString
  | String c rest => if Ascii.eqb c "." then EmptyString else String c (first_dot_segment rest)
  end.

(** The combined list in the words of the specification: the native models,
    then one synthesized summary per key of the mapping that is not a native
    identifier, in the order of the keys. *)
Definition synthesized_summary_spec (cri_model_id : string) : ModelSummary :=
  mkModel (Some cri_model_id) (Some (PyStr.title (first_dot_segment cri_model_id)))
          (Some []) (Some []).

Definition combined_list_spec (native_models : list ModelSummary)
    (cri_models : PyDict.t) : list ModelSummary :=
  List.app
    native_models
    (map synthesized_summary_spec
         (filter (fun k => negb (PyStr.mem k (map model_key native_models)))
                 (PyDict.keys cri_models))).

(** The effect of one turn of the profile loop on the mapping, and the
    line it writes in debug mode. *)
Definition recorded (cri_models : PyDict.t) (profile : InferenceProfileSummary) : PyDict.t :=
  value_of (record_profile false cri_models profile) cri_models.

Definition profile_debug_line (profile : InferenceProfileSummary) : string :=
  let profile_id := get_or (inferenceProfileId profile) "" in
  "DEBUG: profile_id=" ++ profile_id ++
  ", cri_type=" ++ PyStr.show (fst (extract_cri_info profile_id)) ++
  ", base_id=" ++ PyStr.show (snd (extract_cri_info profile_id)).

(** What the operation writes to the error stream after a successful
    primary call. *)
Definition debug_lines (client : BedrockClient) (debug : bool) : list string :=
  Py.stderr (snd (build_cri_models client debug Py.no_output)).

Definition found_line (cri_models : PyDict.t) : string :=
  "DEBUG: Found " ++ PyStr.str_of_nat (List.length cri_models) ++
  " CRI models: " ++ PyDict.repr cri_models.

(** The invariant of the mapping: keys occur once, and no key and no value
    is the empty string. *)
Definition well_formed (d : PyDict.t) : Prop :=
  NoDup (PyDict.keys d) /\ Forall (fun item => fst item <> "" /\ snd item <> "") d.

(** ** Further notions used in the statements *)

(** The profile summaries the operation iterates over: those of the answer,
    none when the profile listing call failed. *)
Definition profiles_of (client : BedrockClient) : list InferenceProfileSummary :=
  match list_inference_profiles client with
  | ApiOk profiles_response => get_or (inferenceProfileSummaries profiles_response) []
  | ApiError _ => []
  end.

(** What the extractor returns for a profile summary (lines 43-44). *)
Definition profile_info (profile : InferenceProfileSummary)
  : option string * option string :=
  extract_cri_info (get_or (inferenceProfileId profile) "").

(** The CRI types the extractor can return. *)
Definition cri_types : list string :=
  map (fun prefix => PyStr.upper (PyStr.drop_last prefix)) cri_prefixes.

(** The models of the table, in the order of its rows. *)
Definition rendered_models (client : BedrockClient)
    (response : FoundationModelsResponse) (show_cross_region_only : bool)
  : list ModelSummary :=
  sort_by sort_key (selected_models client response show_cross_region_only).

(** The five cells of a row before padding, and the width of a row whose
    cells all fit their columns. *)
Definition row_cells (cri_models : PyDict.t) (model : ModelSummary) : list string :=
  [get_or (modelId model) "N/A";
   get_or (providerName model) "N/A";
   PyDict.get (get_or (modelId model) "N/A") cri_models "-";
   PyStr.join ", " (get_or (inputModalities model) []);
   PyStr.join ", " (get_or (outputModalities model) [])].

Definition column_widths : list nat := [50; 15; 12; 8; 8].

(** * Properties *)

(** ** Strings *)

Section StringFacts.

Lemma append_nil_r (s : string) : s ++ "" = s.
Proof. induction s as [|c s IH]; simpl; [reflexivity | now rewrite IH]. Qed.

Lemma append_assoc (a b c : string) : (a ++ b) ++ c = a ++ b ++ c.
Proof. induction a as [|x a IH]; simpl; [reflexivity | now rewrite IH]. Qed.

Lemma length_append (a b : string) :
  String.length (a ++ b) = String.length a + String.length b.
Proof. induction a as [|x a IH]; simpl; [reflexivity | now rewrite IH]. Qed.

Lemma split_not_nil (sep : ascii) (s : string) : PyStr.split sep s <> [].
Proof.
  destruct s as [|c s]; simpl; [discriminate|].
  destruct (Ascii.eqb c sep); [discriminate|].
  destruct (PyStr.split sep s); discriminate.
Qed.

Lemma split_free (sep : ascii) (s : string) :
  PyStr.free_of sep s = true -> PyStr.split sep s = [s].
Proof.
  induction s as [|c s IH]; simpl; [reflexivity|].
  destruct (Ascii.eqb c sep); simpl; [discriminate|].
  intros H. now rewrite (IH H).
Qed.

Lemma split_at_sep (sep : ascii) (a b : string) :
  PyStr.split sep (a ++ String sep b) = (PyStr.split sep a ++ PyStr.split sep b)%list.
Proof.
  induction a as [|c a IH]; simpl.
  - now rewrite Ascii.eqb_refl.
  - destruct (Ascii.eqb c sep); [now rewrite IH|].
    rewrite IH.
    pose proof (split_not_nil sep a) as Hne.
    destruct (PyStr.split sep a); [contradiction | reflexivity].
Qed.

Lemma join_split (sep : ascii) (s : string) :
  PyStr.join (String sep "") (PyStr.split sep s) = s.
Proof.
  unfold PyStr.join.
  induction s as [|c s IH]; simpl; [reflexivity|].
  destruct (Ascii.eqb_spec c sep) as [->|Hc].
  - pose proof (split_not_nil sep s) as Hne.
    destruct (PyStr.split sep s) as [|p ps] eqn:E; [contradiction|].
    simpl. now rewrite <- IH.
  - pose proof (split_not_nil sep s) as Hne.
    destruct (PyStr.split sep s) as [|p ps] eqn:E; [contradiction|].
    rewrite <- IH. destruct ps; reflexivity.
Qed.

Lemma join_snoc (sep : string) (parts : list string) (x : string) :
  parts <> [] ->
  PyStr.join sep (parts ++ [x]) = PyStr.join sep parts ++ sep ++ x.
Proof.
  unfold PyStr.join.
  induction parts as [|p ps IH]; [contradiction|]. intros _.
  destruct ps as [|q qs]; [reflexivity|].
  change (String.concat sep ((p :: q :: qs) ++ [x]))
    with (p ++ sep ++ String.concat sep ((q :: qs) ++ [x])).
  rewrite IH by discriminate.
  change (String.concat sep (p :: q :: qs)) with (p ++ sep ++ String.concat sep (q :: qs)).
  now rewrite !append_assoc.
Qed.

Lemma mem_In (x : string) (xs : list string) : PyStr.mem x xs = true <-> In x xs.
Proof.
  unfold PyStr.mem. rewrite existsb_exists. split.
  - intros (y & Hy & E). apply String.eqb_eq in E. now subst.
  - intros H. exists x. split; [assumption | apply String.eqb_refl].
Qed.

Lemma mem_not_In (x : string) (xs : list string) : PyStr.mem x xs = false <-> ~ In x xs.
Proof.
  rewrite <- mem_In. destruct (PyStr.mem x xs); split; congruence.
Qed.

Lemma startswith_nil (s : string) : PyStr.startswith s "" = true.
Proof. now destruct s. Qed.

End StringFacts.

(** ** The base-model-id normaliser *)

Lemma suffix_free_of_colon (suffix : string) :
  In suffix context_window_suffixes -> PyStr.free_of ":" suffix = true.
Proof.
  unfold context_window_suffixes. simpl.
  intros H. repeat (destruct H as [<-|H]; [reflexivity|]). contradiction.
Qed.

(** The parts of an identifier whose last segment has no colon. *)
Lemma split_last_segment (base suffix : string) :
  PyStr.free_of ":" suffix = true ->
  PyStr.split ":" (base ++ ":" ++ suffix) = (PyStr.split ":" base ++ [suffix])%list.
Proof.
  intros H. change (base ++ ":" ++ suffix) with (base ++ String ":" suffix).
  now rewrite split_at_sep, (split_free _ _ H).
Qed.

Lemma length_parts_gt_1 (base : string) (suffix : string) :
  (1 <? List.length (PyStr.split ":" base ++ [suffix]))%nat = true.
Proof.
  apply Nat.ltb_lt. rewrite length_app. simpl.
  pose proof (split_not_nil ":" base).
  destruct (PyStr.split ":" base); [contradiction | simpl; lia].
Qed.

Lemma get_base_model_id_strip (base suffix : string) :
  In suffix context_window_suffixes ->
  get_base_model_id (base ++ ":" ++ suffix) = base.
Proof.
  intros Hin. unfold get_base_model_id.
  rewrite (split_last_segment _ _ (suffix_free_of_colon _ Hin)).
  rewrite length_parts_gt_1, last_last.
  apply mem_In in Hin. rewrite Hin, removelast_last.
  apply (join_split ":").
Qed.

Lemma get_base_model_id_keep (base suffix : string) :
  PyStr.free_of ":" suffix = true ->
  ~ In suffix context_window_suffixes ->
  get_base_model_id (base ++ ":" ++ suffix) = base ++ ":" ++ suffix.
Proof.
  intros Hfree Hnin. unfold get_base_model_id.
  rewrite (split_last_segment _ _ Hfree).
  rewrite length_parts_gt_1, last_last.
  apply mem_not_In in Hnin. now rewrite Hnin.
Qed.

Lemma get_base_model_id_no_colon (model_id : string) :
  PyStr.free_of ":" model_id = true -> get_base_model_id model_id = model_id.
Proof.
  intros H. unfold get_base_model_id. now rewrite (split_free _ _ H).
Qed.

(** Every identifier either comes back unchanged, and then does not end in
    an enumerated suffix segment, or loses exactly such a segment. *)
Lemma get_base_model_id_cases (model_id : string) :
  (get_base_model_id model_id = model_id /\
   forall base suffix, model_id = base ++ ":" ++ suffix ->
                       ~ In suffix context_window_suffixes)
  \/ (exists base suffix, model_id = base ++ ":" ++ suffix /\
                          In suffix context_window_suffixes /\
                          get_base_model_id model_id = base).
Proof.
  destruct (PyStr.split ":" model_id) as [|p ps] eqn:E.
  { now apply split_not_nil in E. }
  destruct (@exists_last _ (p :: ps)) as (parts & last_part & Hparts); [discriminate|].
  destruct parts as [|q qs].
  - (* a single part: no colon at all *)
    left. split.
    + unfold get_base_model_id. rewrite E, Hparts. reflexivity.
    + intros base suffix -> Hin.
      rewrite (split_last_segment _ _ (suffix_free_of_colon _ Hin)), Hparts in E.
      apply (f_equal (@List.length string)) in E. rewrite length_app in E. simpl in E.
      pose proof (split_not_nil ":" base).
      destruct (PyStr.split ":" base); [contradiction | simpl in E; lia].
  - assert (Hid : model_id = PyStr.join ":" (q :: qs) ++ ":" ++ last_part).
    { rewrite <- (join_split ":" model_id) at 1.
      rewrite E, Hparts. apply join_snoc. discriminate. }
    destruct (PyStr.mem last_part context_window_suffixes) eqn:Hmem.
    + right. exists (PyStr.join ":" (q :: qs)), last_part.
      split; [assumption|]. apply mem_In in Hmem. split; [assumption|].
      rewrite Hid at 1. now apply get_base_model_id_strip.
    + left. split.
      * unfold get_base_model_id. rewrite E, Hparts.
        change (((q :: qs) ++ [last_part])%list) with ((q :: qs) ++ [last_part])%list.
        rewrite last_last, Hmem.
        now destruct (1 <? _)%nat.
      * intros base suffix -> Hin.
        rewrite (split_last_segment _ _ (suffix_free_of_colon _ Hin)), Hparts in E.
        apply app_inj_tail in E. destruct E as [_ <-].
        apply mem_In in Hin. congruence.
Qed.

(** C5: the normaliser removes the last colon-delimited segment together
    with its colon when that segment is one of the enumerated context-window
    suffixes; an identifier without a colon, or whose last segment is not
    enumerated, comes back unchanged. *)
Theorem get_base_model_id_spec (model_id : string) :
  (forall base suffix,
      model_id = base ++ ":" ++ suffix ->
      In suffix context_window_suffixes ->
      get_base_model_id model_id = base)
  /\ (PyStr.free_of ":" model_id = true -> get_base_model_id model_id = model_id)
  /\ (forall base suffix,
         model_id = base ++ ":" ++ suffix ->
         PyStr.free_of ":" suffix = true ->
         ~ In suffix context_window_suffixes ->
         get_base_model_id model_id = model_id).
Proof.
  split; [|split].
  - intros base suffix -> Hin. now apply get_base_model_id_strip.
  - apply get_base_model_id_no_colon.
  - intros base suffix -> Hfree Hnin. now apply get_base_model_id_keep.
Qed.

Lemma get_base_model_id_spec_witness :
  get_base_model_id "anthropic.claude-v2:1:200k" = "anthropic.claude-v2:1"
  /\ get_base_model_id "amazon.titan-text-lite-v1" = "amazon.titan-text-lite-v1"
  /\ get_base_model_id "anthropic.claude-v2:1" = "anthropic.claude-v2:1".
Proof.
  split; [|split].
  - apply (proj1 (get_base_model_id_spec "anthropic.claude-v2:1:200k")
             "anthropic.claude-v2:1" "200k"); [reflexivity | vm_compute; tauto].
  - apply (proj1 (proj2 (get_base_model_id_spec "amazon.titan-text-lite-v1"))).
    reflexivity.
  - apply (proj2 (proj2 (get_base_model_id_spec "anthropic.claude-v2:1"))
             "anthropic.claude-v2" "1"); [reflexivity | reflexivity |].
    vm_compute. intros H.
    repeat (destruct H as [H|H]; [discriminate H|]). exact H.
Defined.

(** A second application strips a second segment: the normaliser is not
    idempotent on an identifier that ends in two enumerated segments. *)
Lemma get_base_model_id_not_idempotent :
  get_base_model_id (get_base_model_id "a:8k:8k") <> get_base_model_id "a:8k:8k".
Proof. vm_compute. discriminate. Qed.

Lemma append_colon_neq (base rest : string) : base <> base ++ ":" ++ rest.
Proof.
  intros H. apply (f_equal String.length) in H.
  rewrite length_append in H. simpl in H. lia.
Qed.

(** C6, amended: one application removes at most one suffix segment, and
    normalising twice equals normalising once exactly for the identifiers
    that do not end in two consecutive enumerated suffix segments. *)
Theorem get_base_model_id_twice (model_id : string) :
  get_base_model_id (get_base_model_id model_id) = get_base_model_id model_id
  <->
  ~ (exists base suffix1 suffix2,
        model_id = base ++ ":" ++ suffix1 ++ ":" ++ suffix2 /\
        In suffix1 context_window_suffixes /\
        In suffix2 context_window_suffixes).
Proof.
  split.
  - intros Hidem (base & s1 & s2 & -> & H1 & H2).
    assert (E : get_base_model_id (base ++ ":" ++ s1 ++ ":" ++ s2) = base ++ ":" ++ s1).
    { replace (base ++ ":" ++ s1 ++ ":" ++ s2) with ((base ++ ":" ++ s1) ++ ":" ++ s2)
        by now rewrite !append_assoc.
      now apply get_base_model_id_strip. }
    rewrite E, (get_base_model_id_strip _ _ H1) in Hidem.
    now apply append_colon_neq in Hidem.
  - intros Hno.
    destruct (get_base_model_id_cases model_id) as [[E _]|(base & s2 & -> & H2 & E)].
    + now rewrite E.
    + rewrite E.
      destruct (get_base_model_id_cases base) as [[E' _]|(base' & s1 & -> & H1 & _)];
        [assumption|].
      exfalso. apply Hno. exists base', s1, s2.
      split; [now rewrite !append_assoc | now split].
Qed.

Lemma get_base_model_id_twice_witness :
  ~ (exists base suffix1 suffix2,
        "anthropic.claude-v2:1:200k" = base ++ ":" ++ suffix1 ++ ":" ++ suffix2 /\
        In suffix1 context_window_suffixes /\
        In suffix2 context_window_suffixes).
Proof.
  apply (proj1 (get_base_model_id_twice "anthropic.claude-v2:1:200k")).
  reflexivity.
Defined.

(** ** The CRI extractor *)

Lemma extract_cri_loop_no_match (prefixes : list string) (profile_id : string) :
  (forall prefix, In prefix prefixes -> PyStr.startswith profile_id prefix = false) ->
  extract_cri_loop prefixes profile_id = (None, None).
Proof.
  induction prefixes as [|p ps IH]; intros H; simpl; [reflexivity|].
  rewrite (H p) by now left.
  apply IH. intros q Hq. apply H. now right.
Qed.

Lemma extract_cri_info_match (prefix rest : string) :
  In prefix cri_prefixes ->
  extract_cri_info (prefix ++ rest) =
  (Some (PyStr.upper (PyStr.drop_last prefix)), Some rest).
Proof.
  unfold cri_prefixes. simpl.
  intros H.
  repeat (destruct H as [<-|H];
          [unfold extract_cri_info, cri_prefixes; simpl;
           rewrite startswith_nil; reflexivity|]).
  contradiction.
Qed.

(** C3: on an identifier that starts with one of the five routing prefixes
    the extractor returns the prefix without its dot in upper case together
    with the exact remainder; on every other string it returns the pair
    (None, None). *)
Theorem extract_cri_info_spec (profile_id : string) :
  (forall prefix rest,
      In prefix cri_prefixes ->
      profile_id = prefix ++ rest ->
      extract_cri_info profile_id =
      (Some (PyStr.upper (PyStr.drop_last prefix)), Some rest))
  /\ ((forall prefix, In prefix cri_prefixes ->
                      PyStr.startswith profile_id prefix = false) ->
      extract_cri_info profile_id = (None, None))
  /\ map (fun prefix => PyStr.upper (PyStr.drop_last prefix)) cri_prefixes
     = ["US"; "EU"; "JP"; "AU"; "GLOBAL"].
Proof.
  split; [|split].
  - intros prefix rest Hin ->. now apply extract_cri_info_match.
  - apply extract_cri_loop_no_match.
  - reflexivity.
Qed.

Lemma extract_cri_info_spec_witness :
  extract_cri_info "global.anthropic.claude-v2" = (Some "GLOBAL", Some "anthropic.claude-v2")
  /\ extract_cri_info "anthropic.claude-v2" = (None, None).
Proof.
  split.
  - apply (proj1 (extract_cri_info_spec "global.anthropic.claude-v2")
             "global." "anthropic.claude-v2"); [vm_compute; tauto | reflexivity].
  - apply (proj1 (proj2 (extract_cri_info_spec "anthropic.claude-v2"))).
    intros prefix H. vm_compute in H.
    repeat (destruct H as [<-|H]; [reflexivity|]). contradiction.
Defined.

(** ** Running the blocks of the main operation *)

Section Runs.

Lemma streams_eta (w : Py.Streams) : Py.mkStreams (Py.stdout w) (Py.stderr w) = w.
Proof. now destruct w. Qed.

Lemma record_profile_run (debug : bool) (cri_models : PyDict.t)
    (profile : InferenceProfileSummary) (w : Py.Streams) :
  record_profile debug cri_models profile w =
  (Py.Normal (recorded cri_models profile),
   Py.mkStreams (Py.stdout w)
                (Py.stderr w ++ (if debug then [profile_debug_line profile] else []))%list).
Proof.
  unfold recorded, value_of, record_profile, profile_debug_line.
  destruct (extract_cri_info (get_or (inferenceProfileId profile) "")) as [cri_type base_id].
  destruct debug, cri_type as [t|], base_id as [b|]; cbn;
    try destruct (negb (t =? "") && negb (b =? "")); cbn;
    rewrite ?app_nil_r, ?streams_eta; reflexivity.
Qed.

Lemma profile_loop_run (debug : bool) (profiles : list InferenceProfileSummary)
    (cri_models : PyDict.t) (w : Py.Streams) :
  Py.for_each profiles cri_models (record_profile debug) w =
  (Py.Normal (fold_left recorded profiles cri_models),
   Py.mkStreams (Py.stdout w)
                (Py.stderr w ++ (if debug then map profile_debug_line profiles else []))%list).
Proof.
  revert cri_models w.
  induction profiles as [|p ps IH]; intros cri_models w; cbn.
  - unfold Py.ret. destruct debug; now rewrite app_nil_r, streams_eta.
  - unfold Py.bind. rewrite record_profile_run, IH. cbn.
    destruct debug; cbn; rewrite <- ?app_assoc, ?app_nil_r; reflexivity.
Qed.

(** The mapping does not depend on the debug flag, and the block neither
    fails nor touches standard output. *)
Lemma build_cri_models_run (client : BedrockClient) (debug : bool) :
  build_cri_models client debug Py.no_output =
  (Py.Normal (cri_models_of client), Py.mkStreams [] (debug_lines client debug)).
Proof.
  unfold debug_lines, cri_models_of, value_of, build_cri_models, Py.try_except, Py.bind.
  destruct (list_inference_profiles client) as [profiles_response|message]; cbn.
  - now rewrite !profile_loop_run.
  - destruct debug; reflexivity.
Qed.

Lemma cri_models_of_ok (client : BedrockClient) (profiles_response : InferenceProfilesResponse) :
  list_inference_profiles client = ApiOk profiles_response ->
  cri_models_of client =
  fold_left recorded (get_or (inferenceProfileSummaries profiles_response) []) PyDict.empty.
Proof.
  intros H.
  unfold cri_models_of, value_of, build_cri_models, Py.try_except, Py.bind.
  rewrite H. cbn. now rewrite profile_loop_run.
Qed.

Lemma cri_models_of_error (client : BedrockClient) (message : string) :
  list_inference_profiles client = ApiError message ->
  cri_models_of client = PyDict.empty.
Proof.
  intros H.
  unfold cri_models_of, value_of, build_cri_models, Py.try_except, Py.bind.
  now rewrite H.
Qed.

Lemma debug_lines_quiet (client : BedrockClient) : debug_lines client false = [].
Proof.
  unfold debug_lines, build_cri_models, Py.try_except, Py.bind.
  destruct (list_inference_profiles client) as [profiles_response|message]; cbn.
  - now rewrite profile_loop_run.
  - reflexivity.
Qed.

Lemma debug_lines_prefixed (client : BedrockClient) (debug : bool) :
  Forall (fun line => PyStr.startswith line "DEBUG: " = true) (debug_lines client debug).
Proof.
  unfold debug_lines, build_cri_models, Py.try_except, Py.bind.
  destruct (list_inference_profiles client) as [profiles_response|message]; cbn.
  - rewrite profile_loop_run. cbn. destruct debug; [|constructor].
    apply Forall_forall. intros line Hin. apply in_map_iff in Hin.
    destruct Hin as (p & <- & _). reflexivity.
  - destruct debug; cbn; repeat constructor.
Qed.

Lemma print_rows_run (cri_models : PyDict.t) (models : list ModelSummary) (w : Py.Streams) :
  Py.for_each models tt (fun _ model => Py.print (table_row cri_models model)) w =
  (Py.Normal tt,
   Py.mkStreams (Py.stdout w ++ map (table_row cri_models) models)%list (Py.stderr w)).
Proof.
  revert w. induction models as [|m ms IH]; intros w; cbn.
  - unfold Py.ret. now rewrite app_nil_r, streams_eta.
  - unfold Py.bind, Py.print at 1. rewrite IH. cbn.
    now rewrite <- app_assoc.
Qed.

Lemma print_table_run (cri_models : PyDict.t) (title : string)
    (models : list ModelSummary) (w : Py.Streams) :
  print_table cri_models title models w =
  (Py.Normal tt,
   Py.mkStreams (Py.stdout w ++ table_lines cri_models title models)%list (Py.stderr w)).
Proof.
  unfold print_table, table_lines, Py.bind, Py.print at 1 2 3 4.
  rewrite print_rows_run. unfold Py.print.
  cbv beta iota delta [Py.stdout Py.stderr].
  now rewrite <- !app_assoc.
Qed.

End Runs.

(** ** The main operation as a function of the two service answers *)

Section MainOperation.

Variables (client : BedrockClient) (region : string).

Lemma run_primary_failure (show_cross_region_only debug : bool) (message : string) :
  list_foundation_models client = ApiError message ->
  run client region show_cross_region_only debug =
  (Py.SysExit 1%Z, Py.mkStreams [] ["Error listing models: " ++ message]).
Proof.
  intros H. unfold run, list_bedrock_models, Py.def, Py.try_except, Py.bind.
  now rewrite H.
Qed.

(** After a successful primary call the operation comes back normally; it
    prints one of the two notices when the selection is empty and the
    table of the sorted selection otherwise. *)
Lemma run_primary_ok (show_cross_region_only debug : bool)
    (response : FoundationModelsResponse) :
  list_foundation_models client = ApiOk response ->
  run client region show_cross_region_only debug =
  (Py.Normal tt,
   Py.mkStreams
     (match selected_models client response show_cross_region_only with
      | [] => [if show_cross_region_only
               then no_cri_message region else no_models_message region]
      | models =>
          table_lines (cri_models_of client)
                      (if show_cross_region_only then cri_title region else full_title region)
                      (sort_by sort_key models)
      end)
     (debug_lines client debug ++
      (if debug then [found_line (cri_models_of client)] else []))%list).
Proof.
  intros H.
  unfold run, list_bedrock_models, Py.def, Py.try_except.
  unfold Py.bind at 1. rewrite H. cbn [call Py.ret].
  unfold Py.bind at 1. rewrite build_cri_models_run.
  unfold selected_models, all_models_of, native_models_of.
  set (cri := cri_models_of client).
  set (all := combine_models _ _ cri).
  assert (Herr : forall w, Py.when debug (Py.print_err (found_line cri)) w =
                           (Py.Normal tt,
                            Py.mkStreams (Py.stdout w)
                              (Py.stderr w ++ (if debug then [found_line cri] else []))%list)).
  { intros w. destruct debug; cbn; [reflexivity|].
    unfold Py.ret. now rewrite app_nil_r, streams_eta. }
  unfold Py.bind at 1. fold (found_line cri). rewrite Herr.
  cbv beta iota delta [Py.stdout Py.stderr].
  destruct show_cross_region_only.
  - destruct (filter _ all) as [|m ms] eqn:E.
    + reflexivity.
    + unfold Py.bind. cbn [is_empty Py.when Py.ret fst snd].
      rewrite print_table_run. reflexivity.
  - destruct all as [|m ms] eqn:E.
    + reflexivity.
    + unfold Py.bind. cbn [is_empty Py.when Py.ret fst snd].
      rewrite print_table_run. reflexivity.
Qed.

End MainOperation.

(** ** The mapping from base model id to CRI type *)

Section DictFacts.

Lemma dict_mem_In (k : string) (d : PyDict.t) :
  PyDict.mem k d = true <-> In k (PyDict.keys d).
Proof.
  unfold PyDict.mem, PyDict.keys. rewrite existsb_exists, in_map_iff. split.
  - intros (kv & Hin & E). apply String.eqb_eq in E. now exists kv.
  - intros (kv & E & Hin). exists kv. split; [assumption|]. now apply String.eqb_eq.
Qed.

Lemma dict_keys_set (k v : string) (d : PyDict.t) :
  PyDict.keys (PyDict.set k v d) =
  if PyDict.mem k d then PyDict.keys d else (PyDict.keys d ++ [k])%list.
Proof.
  induction d as [|[k' v'] d IH]; [reflexivity|].
  cbn [PyDict.set PyDict.mem existsb fst].
  destruct (String.eqb_spec k' k) as [->|Hne]; [reflexivity|].
  cbn [orb]. fold (PyDict.mem k d).
  change (PyDict.keys ((k', v') :: PyDict.set k v d))
    with (k' :: PyDict.keys (PyDict.set k v d)).
  rewrite IH. now destruct (PyDict.mem k d).
Qed.

Lemma dict_set_NoDup (k v : string) (d : PyDict.t) :
  NoDup (PyDict.keys d) -> NoDup (PyDict.keys (PyDict.set k v d)).
Proof.
  intros H. rewrite dict_keys_set.
  destruct (PyDict.mem k d) eqn:E; [assumption|].
  apply NoDup_app; [assumption | repeat constructor; intros [] |].
  intros x Hx [<-|[]]. apply dict_mem_In in Hx. congruence.
Qed.

Lemma dict_set_items (k v : string) (d : PyDict.t) (item : string * string) :
  In item (PyDict.set k v d) -> item = (k, v) \/ In item d.
Proof.
  induction d as [|[k' v'] d IH]; cbn [PyDict.set].
  - intros [<-|[]]. now left.
  - destruct (k' =? k).
    + intros [<-|H]; [now left | right; now right].
    + intros [<-|H]; [right; now left|].
      destruct (IH H) as [->|H']; [now left | right; now right].
Qed.

(** One turn of the loop leaves the mapping alone or records a pair whose
    two components are non-empty. *)
Lemma recorded_cases (cri_models : PyDict.t) (profile : InferenceProfileSummary) :
  recorded cri_models profile = cri_models
  \/ exists base_id cri_type,
       base_id <> "" /\ cri_type <> "" /\
       extract_cri_info (get_or (inferenceProfileId profile) "") =
       (Some cri_type, Some base_id) /\
       recorded cri_models profile = PyDict.set base_id cri_type cri_models.
Proof.
  unfold recorded, value_of, record_profile.
  destruct (extract_cri_info (get_or (inferenceProfileId profile) ""))
    as [[t|] [b|]]; cbn; try (now left).
  destruct (String.eqb_spec t ""), (String.eqb_spec b ""); cbn; try (now left).
  right. now exists b, t.
Qed.

Lemma recorded_well_formed (cri_models : PyDict.t) (profile : InferenceProfileSummary) :
  well_formed cri_models -> well_formed (recorded cri_models profile).
Proof.
  intros [Hnd Hne].
  destruct (recorded_cases cri_models profile) as [->|(b & t & Hb & Ht & _ & ->)];
    [now split|].
  split; [now apply dict_set_NoDup|].
  apply Forall_forall. intros item Hin.
  destruct (dict_set_items _ _ _ _ Hin) as [->|Hin']; [now split|].
  now apply (proj1 (Forall_forall _ _) Hne).
Qed.

Lemma profile_fold_well_formed (profiles : list InferenceProfileSummary) (d : PyDict.t) :
  well_formed d -> well_formed (fold_left recorded profiles d).
Proof.
  revert d. induction profiles as [|p ps IH]; intros d H; cbn; [assumption|].
  apply IH. now apply recorded_well_formed.
Qed.

Lemma cri_models_of_well_formed (client : BedrockClient) :
  well_formed (cri_models_of client).
Proof.
  destruct (list_inference_profiles client) as [profiles_response|message] eqn:E.
  - rewrite (cri_models_of_ok _ _ E).
    apply profile_fold_well_formed. split; constructor.
  - rewrite (cri_models_of_error _ _ E). split; constructor.
Qed.

End DictFacts.

(** C10: whatever the profile listing answers, the mapping built by the
    operation has no empty key (and no empty value): the bare prefix "us."
    extracts the empty base id, and a pair is recorded only when both
    components are non-empty. *)
Theorem cri_models_no_empty_key (client : BedrockClient) (debug : bool) :
  fst (build_cri_models client debug Py.no_output) = Py.Normal (cri_models_of client)
  /\ PyDict.mem "" (cri_models_of client) = false
  /\ Forall (fun item => fst item <> "" /\ snd item <> "")
            (PyDict.items (cri_models_of client))
  /\ extract_cri_info "us." = (Some "US", Some "")
  /\ cri_models_of
       (mkClient (list_foundation_models client)
                 (ApiOk (mkProfilesResponse (Some [mkProfile (Some "us.")]))))
     = PyDict.empty.
Proof.
  destruct (cri_models_of_well_formed client) as [_ Hne].
  split; [now rewrite build_cri_models_run|].
  split; [|split; [assumption | split; reflexivity]].
  destruct (PyDict.mem "" (cri_models_of client)) eqn:E; [|reflexivity].
  apply dict_mem_In, in_map_iff in E. destruct E as (item & E & Hin).
  apply (proj1 (Forall_forall _ _) Hne) in Hin. now destruct Hin.
Qed.

(** ** The combined list *)

Section Combine.

Lemma hd_split_first_segment (s : string) :
  List.hd "" (PyStr.split "." s) = first_dot_segment s.
Proof.
  induction s as [|c s IH]; cbn; [reflexivity|].
  destruct (Ascii.eqb c "."); [reflexivity|].
  rewrite <- IH.
  pose proof (split_not_nil "." s).
  destruct (PyStr.split "." s); [contradiction | reflexivity].
Qed.

Lemma cri_only_model_spec (cri_model_id : string) :
  cri_only_model cri_model_id = synthesized_summary_spec cri_model_id.
Proof.
  unfold cri_only_model, synthesized_summary_spec.
  now rewrite hd_split_first_segment.
Qed.

(** The loop appends to whatever list it starts from. *)
Lemma combine_loop (ids : list string) (items : list (string * string))
    (start : list ModelSummary) :
  fold_left
    (fun all_models item =>
       if negb (PyStr.mem (fst item) ids)
       then (all_models ++ [cri_only_model (fst item)])%list
       else all_models)
    items start
  = (start ++ map cri_only_model
                  (filter (fun k => negb (PyStr.mem k ids)) (map fst items)))%list.
Proof.
  revert start. induction items as [|item items IH]; intros start; cbn.
  - now rewrite app_nil_r.
  - rewrite IH. destruct (negb (PyStr.mem (fst item) ids)); cbn; [|reflexivity].
    now rewrite <- app_assoc.
Qed.

Lemma combine_models_eq (native_models : list ModelSummary) (ids : list string)
    (cri_models : PyDict.t) :
  combine_models native_models ids cri_models =
  (native_models ++
   map cri_only_model
       (filter (fun k => negb (PyStr.mem k ids)) (PyDict.keys cri_models)))%list.
Proof. apply combine_loop. Qed.

Lemma model_key_cri_only (l : list string) : map model_key (map cri_only_model l) = l.
Proof. rewrite map_map. cbn. apply map_id. Qed.

Lemma NoDup_filter {A} (p : A -> bool) (l : list A) : NoDup l -> NoDup (filter p l).
Proof.
  induction 1 as [|x l Hx Hl IH]; cbn; [constructor|].
  destruct (p x); [|assumption].
  constructor; [|assumption]. intros Hin. apply filter_In in Hin. tauto.
Qed.

(** Filtering a list of models keeps their identifiers distinct. *)
Lemma filter_keeps_distinct_keys (keep : ModelSummary -> bool) (models : list ModelSummary) :
  NoDup (map model_key models) -> NoDup (map model_key (filter keep models)).
Proof.
  induction models as [|m ms IH]; cbn; [constructor|].
  intros H. inversion_clear H as [|? ? Hm Hms].
  destruct (keep m); cbn; [|now apply IH].
  constructor; [|now apply IH].
  intros Hin. apply Hm. apply in_map_iff in Hin. destruct Hin as (m' & E & Hin).
  apply filter_In in Hin. apply in_map_iff. exists m'. tauto.
Qed.

End Combine.

(** C2: the loop of lines 57-66 builds the list described by the
    specification: the native models, followed by one synthesized summary per
    key of the mapping that is not a native identifier, with the title-cased
    first dot-segment as provider and empty modality lists. For the native
    list [a.foo / A] and the profile us.b.bar the operation lists a.foo with
    CRI type "-" and then b.bar with CRI type "US" and provider "B". *)
Theorem combine_models_refines_spec (native_models : list ModelSummary)
    (cri_models : PyDict.t) :
  combine_models native_models (map model_key native_models) cri_models
  = combined_list_spec native_models cri_models
  /\ (let a_foo := mkModel (Some "a.foo") (Some "A") None None in
      let response := mkModelsResponse (Some [a_foo]) in
      let client :=
        mkClient (ApiOk response)
                 (ApiOk (mkProfilesResponse (Some [mkProfile (Some "us.b.bar")]))) in
      cri_models_of client = [("b.bar", "US")]
      /\ all_models_of client response = [a_foo; mkModel (Some "b.bar") (Some "B") (Some []) (Some [])]
      /\ map (fun m => PyDict.get (get_or (modelId m) "N/A") (cri_models_of client) "-")
             (all_models_of client response) = ["-"; "US"]
      /\ run client "us-west-2" false false =
         (Py.Normal tt,
          Py.mkStreams
            (table_lines [("b.bar", "US")] (full_title "us-west-2")
                         [a_foo; mkModel (Some "b.bar") (Some "B") (Some []) (Some [])])
            [])).
Proof.
  split.
  - rewrite combine_models_eq. unfold combined_list_spec.
    f_equal. apply map_ext. apply cri_only_model_spec.
  - cbv zeta. repeat split; reflexivity.
Qed.

(** ** Sorting *)

Section SortFacts.

Context {A : Type} (key : A -> string * string).

Lemma insert_by_perm (x : A) (l : list A) : Permutation (x :: l) (insert_by key x l).
Proof.
  induction l as [|y l IH]; cbn; [reflexivity|].
  destruct (tuple_lt (key y) (key x)); [|reflexivity].
  rewrite perm_swap. now constructor.
Qed.

Lemma sort_by_perm (l : list A) : Permutation l (sort_by key l).
Proof.
  induction l as [|x l IH]; cbn; [constructor|].
  rewrite <- insert_by_perm. now constructor.
Qed.

End SortFacts.

(** ** Uniqueness of the identifiers of the combined list *)

(** A catalog that lists one identifier twice is rendered with that
    identifier twice. *)
Lemma duplicate_native_ids_are_rendered :
  let a_foo := mkModel (Some "a.foo") (Some "A") (Some ["TEXT"]) (Some ["TEXT"]) in
  let response := mkModelsResponse (Some [a_foo; a_foo]) in
  let client := mkClient (ApiOk response) (ApiOk (mkProfilesResponse (Some []))) in
  ~ NoDup (map model_key (all_models_of client response))
  /\ ~ NoDup (map model_key (sort_by sort_key (selected_models client response false))).
Proof.
  cbv zeta. split; vm_compute; intros H; inversion_clear H as [|? ? Hin _];
    apply Hin; now left.
Qed.

(** C1, amended: the entries appended for CRI-only models have pairwise
    distinct identifiers, all of them keys of the mapping and none of them a
    native identifier; hence, when the native list has pairwise distinct
    identifiers, so have the combined list and the list that is rendered. *)
Theorem combined_model_ids_unique (client : BedrockClient)
    (response : FoundationModelsResponse) (show_cross_region_only : bool) :
  let native_models := native_models_of response in
  let all_models := all_models_of client response in
  let rendered := sort_by sort_key (selected_models client response show_cross_region_only) in
  (exists cri_only,
      all_models = (native_models ++ cri_only)%list
      /\ NoDup (map model_key cri_only)
      /\ Forall (fun m => PyDict.mem (model_key m) (cri_models_of client) = true
                          /\ PyStr.mem (model_key m) (map model_key native_models) = false)
                cri_only)
  /\ (NoDup (map model_key native_models) ->
      NoDup (map model_key all_models) /\ NoDup (map model_key rendered)).
Proof.
  cbv zeta.
  set (ids := map model_key (native_models_of response)).
  set (extra := filter (fun k => negb (PyStr.mem k ids)) (PyDict.keys (cri_models_of client))).
  assert (Hall : all_models_of client response
                 = (native_models_of response ++ map cri_only_model extra)%list)
    by apply combine_models_eq.
  assert (Hextra : NoDup extra).
  { apply NoDup_filter. apply cri_models_of_well_formed. }
  assert (Hdistinct : NoDup ids -> NoDup (map model_key (all_models_of client response))).
  { intros Hids. rewrite Hall, map_app, model_key_cri_only.
    apply NoDup_app; [assumption | assumption |].
    intros k Hk Hin. apply filter_In in Hin. destruct Hin as [_ Hin].
    apply mem_In in Hk. fold ids in Hk. now rewrite Hk in Hin. }
  split.
  - exists (map cri_only_model extra). split; [assumption|].
    rewrite model_key_cri_only. split; [assumption|].
    apply Forall_forall. intros m Hm. apply in_map_iff in Hm.
    destruct Hm as (k & <- & Hk). apply filter_In in Hk. destruct Hk as [Hk Hn].
    cbn. split; [now apply dict_mem_In|].
    fold ids. now destruct (PyStr.mem k ids).
  - intros Hids. split; [now apply Hdistinct|].
    apply (Permutation_NoDup (l := map model_key (selected_models client response
                                                    show_cross_region_only))).
    + apply Permutation_map, sort_by_perm.
    + unfold selected_models. destruct show_cross_region_only.
      * apply filter_keeps_distinct_keys. now apply Hdistinct.
      * now apply Hdistinct.
Qed.

Lemma combined_model_ids_unique_witness :
  let a_foo := mkModel (Some "a.foo") (Some "A") (Some ["TEXT"]) (Some ["TEXT"]) in
  let response := mkModelsResponse (Some [a_foo]) in
  let client :=
    mkClient (ApiOk response)
             (ApiOk (mkProfilesResponse
                       (Some [mkProfile (Some "us.b.bar"); mkProfile (Some "eu.b.bar");
                              mkProfile (Some "us.a.foo")]))) in
  NoDup (map model_key (all_models_of client response))
  /\ NoDup (map model_key (sort_by sort_key (selected_models client response true))).
Proof.
  cbv zeta.
  apply (proj2 (combined_model_ids_unique
                  (mkClient (ApiOk (mkModelsResponse (Some [mkModel (Some "a.foo") (Some "A") (Some ["TEXT"]) (Some ["TEXT"])])))
                            (ApiOk (mkProfilesResponse
                                      (Some [mkProfile (Some "us.b.bar"); mkProfile (Some "eu.b.bar");
                                             mkProfile (Some "us.a.foo")]))))
                  (mkModelsResponse (Some [mkModel (Some "a.foo") (Some "A") (Some ["TEXT"]) (Some ["TEXT"])]))
                  true)).
  vm_compute. constructor; [intros [] | constructor].
Defined.

(** ** The order of the sort keys *)

Section KeyOrder.

Lemma ascii_compare_refl (c : ascii) : Ascii.compare c c = Eq.
Proof. unfold Ascii.compare. apply N.compare_refl. Qed.

Lemma ascii_compare_lt_trans (a b c : ascii) :
  Ascii.compare a b = Lt -> Ascii.compare b c = Lt -> Ascii.compare a c = Lt.
Proof.
  unfold Ascii.compare. rewrite !N.compare_lt_iff. apply N.lt_trans.
Qed.

Lemma string_compare_refl (s : string) : String.compare s s = Eq.
Proof.
  induction s as [|c s IH]; cbn; [reflexivity|]. now rewrite ascii_compare_refl.
Qed.

Lemma string_compare_lt_trans (s1 s2 s3 : string) :
  String.compare s1 s2 = Lt -> String.compare s2 s3 = Lt -> String.compare s1 s3 = Lt.
Proof.
  revert s2 s3.
  induction s1 as [|c1 s1 IH]; intros [|c2 s2] [|c3 s3]; cbn; try congruence.
  destruct (Ascii.compare c1 c2) eqn:E12; try discriminate;
    destruct (Ascii.compare c2 c3) eqn:E23; try discriminate; intros H12 H23.
  - apply Ascii.compare_eq_iff in E12, E23. subst.
    rewrite ascii_compare_refl. now apply (IH s2).
  - apply Ascii.compare_eq_iff in E12. subst. now rewrite E23.
  - apply Ascii.compare_eq_iff in E23. subst. now rewrite E12.
  - now rewrite (ascii_compare_lt_trans _ _ _ E12 E23).
Qed.

Lemma string_ltb_trans (s1 s2 s3 : string) :
  (s1 <? s2) = true -> (s2 <? s3) = true -> (s1 <? s3) = true.
Proof.
  unfold String.ltb.
  destruct (String.compare s1 s2) eqn:E12; try discriminate.
  destruct (String.compare s2 s3) eqn:E23; try discriminate.
  now rewrite (string_compare_lt_trans _ _ _ E12 E23).
Qed.

Lemma string_leb_trans (s1 s2 s3 : string) :
  (s1 <=? s2) = true -> (s2 <=? s3) = true -> (s1 <=? s3) = true.
Proof.
  unfold String.leb.
  destruct (String.compare s1 s2) eqn:E12; try discriminate;
    destruct (String.compare s2 s3) eqn:E23; try discriminate; intros _ _.
  - apply String.compare_eq_iff in E12. subst. now rewrite E23.
  - apply String.compare_eq_iff in E12. subst. now rewrite E23.
  - apply String.compare_eq_iff in E23. subst. now rewrite E12.
  - now rewrite (string_compare_lt_trans _ _ _ E12 E23).
Qed.

(** The two ways out of the comparison made by the sort. *)
Lemma tuple_lt_true (a b : string * string) : tuple_lt a b = true -> key_le a b.
Proof.
  unfold tuple_lt, key_le.
  destruct (String.eqb_spec (fst a) (fst b)) as [E|_]; intros H; [right | now left].
  split; [assumption|]. unfold String.ltb in H. unfold String.leb.
  now destruct (String.compare (snd a) (snd b)).
Qed.

Lemma tuple_lt_false (a b : string * string) : tuple_lt b a = false -> key_le a b.
Proof.
  unfold tuple_lt, key_le, String.ltb, String.leb.
  destruct (String.eqb_spec (fst b) (fst a)) as [E|Hne]; intros H.
  - right. split; [now symmetry|].
    rewrite String.compare_antisym. now destruct (String.compare (snd b) (snd a)).
  - left. rewrite String.compare_antisym.
    destruct (String.compare (fst b) (fst a)) eqn:E; try discriminate; [|reflexivity].
    now apply String.compare_eq_iff in E.
Qed.

Lemma key_le_trans (a b c : string * string) : key_le a b -> key_le b c -> key_le a c.
Proof.
  unfold key_le. intros [Hab|[Eab Hab]] [Hbc|[Ebc Hbc]].
  - left. now apply (string_ltb_trans _ (fst b)).
  - left. now rewrite <- Ebc.
  - left. now rewrite Eab.
  - right. split; [congruence|]. now apply (string_leb_trans _ (snd b)).
Qed.

Context {A : Type} (key : A -> string * string).

Lemma insert_by_sorted (x : A) (l : list A) :
  StronglySorted key_le (map key l) ->
  StronglySorted key_le (map key (insert_by key x l)).
Proof.
  induction l as [|y l IH]; cbn; intros H.
  - repeat constructor.
  - inversion_clear H as [|? ? Hl Hy].
    destruct (tuple_lt (key y) (key x)) eqn:E.
    + cbn. constructor; [now apply IH|].
      apply (Permutation_Forall (Permutation_map key (insert_by_perm key x l))).
      cbn. constructor; [now apply tuple_lt_true | assumption].
    + apply tuple_lt_false in E. cbn.
      constructor; [now constructor|].
      constructor; [assumption|].
      apply (Forall_impl _ (fun k Hk => key_le_trans _ _ _ E Hk) Hy).
Qed.

Lemma sort_by_sorted (l : list A) : StronglySorted key_le (map key (sort_by key l)).
Proof.
  induction l as [|x l IH]; cbn; [constructor | now apply insert_by_sorted].
Qed.

End KeyOrder.

(** C7: whenever the selection that reaches the rendering step is not
    empty, the rows of the table are the rows of the selected models in
    ascending order of the pair (providerName, modelId), the provider being
    the primary key and both compared by character codes; providers Z, A, A
    with the identifiers z1, a2, a1 come out in the order a1, a2, z1. *)
Theorem rendered_rows_sorted (client : BedrockClient) (region : string)
    (show_cross_region_only debug : bool) (response : FoundationModelsResponse) :
  (list_foundation_models client = ApiOk response ->
   selected_models client response show_cross_region_only <> [] ->
   let rendered := sort_by sort_key (selected_models client response show_cross_region_only) in
   Py.stdout (snd (run client region show_cross_region_only debug))
   = table_lines (cri_models_of client)
                 (if show_cross_region_only then cri_title region else full_title region)
                 rendered
   /\ StronglySorted key_le (map sort_key rendered)
   /\ Permutation (selected_models client response show_cross_region_only) rendered)
  /\ (let model p i := mkModel (Some i) (Some p) (Some ["TEXT"]) (Some ["TEXT"]) in
      let catalog := mkModelsResponse (Some [model "Z" "z1"; model "A" "a2"; model "A" "a1"]) in
      let service := mkClient (ApiOk catalog) (ApiOk (mkProfilesResponse (Some []))) in
      Py.stdout (snd (run service region false debug))
      = table_lines [] (full_title region) [model "A" "a1"; model "A" "a2"; model "Z" "z1"]).
Proof.
  split.
  - intros Hok Hne rendered. subst rendered.
    split; [|split; [apply sort_by_sorted | apply sort_by_perm]].
    rewrite (run_primary_ok _ _ _ _ _ Hok). cbn [snd Py.stdout].
    now destruct (selected_models client response show_cross_region_only).
  - cbv zeta. erewrite run_primary_ok by reflexivity. reflexivity.
Qed.

Lemma rendered_rows_sorted_witness :
  let model p i := mkModel (Some i) (Some p) (Some ["TEXT"]) (Some ["TEXT"]) in
  let catalog := mkModelsResponse (Some [model "b" "m"; model "B" "m"; model "A" "n"]) in
  let service := mkClient (ApiOk catalog) (ApiError "throttled") in
  list_foundation_models service = ApiOk catalog
  /\ selected_models service catalog false <> []
  /\ StronglySorted key_le (map sort_key (sort_by sort_key (selected_models service catalog false)))
  /\ map sort_key (sort_by sort_key (selected_models service catalog false))
     = [("A", "n"); ("B", "m"); ("b", "m")].
Proof.
  cbv zeta.
  split; [reflexivity|].
  split; [vm_compute; discriminate|].
  split; [|reflexivity].
  eapply (proj1 (rendered_rows_sorted _ "us-west-2" false false _));
    [reflexivity | vm_compute; discriminate].
Defined.

(** ** Notices, exit status and degraded operation *)

Section Notices.

Lemma table_lines_not_singleton (cri_models : PyDict.t) (title : string)
    (models : list ModelSummary) (line : string) :
  table_lines cri_models title models <> [line].
Proof. unfold table_lines. cbn. discriminate. Qed.

Lemma notices_differ (region : string) : no_cri_message region <> no_models_message region.
Proof. unfold no_cri_message, no_models_message. cbn. discriminate. Qed.

Lemma filter_no_cri (models : list ModelSummary) :
  filter (fun m => PyDict.mem (model_key m) PyDict.empty) models = [].
Proof. induction models as [|m ms IH]; [reflexivity | exact IH]. Qed.

Lemma filter_no_native (keys : list string) :
  filter (fun k => negb (PyStr.mem k [])) keys = keys.
Proof.
  induction keys as [|k ks IH]; [reflexivity|].
  change (k :: filter (fun k => negb (PyStr.mem k [])) ks = k :: ks).
  now rewrite IH.
Qed.

Lemma all_models_without_cri (client : BedrockClient) (response : FoundationModelsResponse) :
  cri_models_of client = PyDict.empty ->
  all_models_of client response = native_models_of response.
Proof.
  intros H. unfold all_models_of. rewrite H, combine_models_eq. cbn. apply app_nil_r.
Qed.

Lemma all_models_nil (client : BedrockClient) (response : FoundationModelsResponse) :
  all_models_of client response = [] <->
  native_models_of response = [] /\ cri_models_of client = PyDict.empty.
Proof.
  split.
  - unfold all_models_of. rewrite combine_models_eq. intros H.
    apply app_eq_nil in H. destruct H as [Hn He]. split; [assumption|].
    rewrite Hn in He. apply map_eq_nil in He.
    change (map model_key []) with (@nil string) in He.
    rewrite filter_no_native in He.
    now apply map_eq_nil in He.
  - intros [Hn Hc]. now rewrite (all_models_without_cri _ _ Hc).
Qed.

End Notices.

(** With the flag set and a profile listing that fails, the operation
    prints the CRI notice, not a table. *)
Lemma profile_failure_without_table :
  let a_foo := mkModel (Some "a.foo") (Some "A") (Some ["TEXT"]) (Some ["TEXT"]) in
  let client := mkClient (ApiOk (mkModelsResponse (Some [a_foo]))) (ApiError "AccessDenied") in
  run client "us-west-2" true false
  = (Py.Normal tt, Py.mkStreams [no_cri_message "us-west-2"] [])
  /\ ~ (exists cri_models title models,
           Py.stdout (snd (run client "us-west-2" true false))
           = table_lines cri_models title models).
Proof.
  cbv zeta. split; [reflexivity|].
  intros (cri_models & title & models & H). symmetry in H.
  now apply table_lines_not_singleton in H.
Qed.

(** C4, amended: the operation exits with code 1, after the single line
    "Error listing models: <message>" on the error stream and nothing on
    standard output, exactly when the primary listing call fails. A failure
    of the profile listing call never gives a non-zero exit: the operation
    goes on with the empty mapping and, when the flag is unset and the
    native catalog is not empty, prints the full table, every CRI cell
    being "-"; with the flag set it prints the CRI notice, and with an empty
    catalog the no-models notice. *)
Theorem exit_status_and_degradation (client : BedrockClient) (region : string)
    (show_cross_region_only debug : bool) :
  let result := run client region show_cross_region_only debug in
  (Py.exit_code (fst result) = 1%Z <->
   exists message, list_foundation_models client = ApiError message)
  /\ (forall message,
         list_foundation_models client = ApiError message ->
         result = (Py.SysExit 1%Z, Py.mkStreams [] ["Error listing models: " ++ message]))
  /\ (forall response,
         list_foundation_models client = ApiOk response ->
         fst result = Py.Normal tt
         /\ Py.exit_code (fst result) = 0%Z
         /\ Forall (fun line => PyStr.startswith line "DEBUG: " = true) (Py.stderr (snd result))
         /\ (debug = false -> Py.stderr (snd result) = []))
  /\ (forall response message,
         list_foundation_models client = ApiOk response ->
         list_inference_profiles client = ApiError message ->
         cri_models_of client = PyDict.empty
         /\ Py.exit_code (fst result) = 0%Z
         /\ Py.stdout (snd result)
            = (if show_cross_region_only then [no_cri_message region]
               else match native_models_of response with
                    | [] => [no_models_message region]
                    | native_models =>
                        table_lines PyDict.empty (full_title region)
                                    (sort_by sort_key native_models)
                    end)
         /\ Forall (fun model =>
                      PyDict.get (get_or (modelId model) "N/A") (cri_models_of client) "-" = "-")
                   (native_models_of response)).
Proof.
  cbv zeta.
  assert (Hstderr : forall response,
             list_foundation_models client = ApiOk response ->
             Forall (fun line => PyStr.startswith line "DEBUG: " = true)
                    (Py.stderr (snd (run client region show_cross_region_only debug)))
             /\ (debug = false ->
                 Py.stderr (snd (run client region show_cross_region_only debug)) = [])).
  { intros response Hok. rewrite (run_primary_ok _ _ _ _ _ Hok). cbn [snd Py.stderr].
    split.
    - apply Forall_app. split; [apply debug_lines_prefixed|].
      destruct debug; repeat constructor.
    - intros ->. now rewrite debug_lines_quiet. }
  split; [|split; [|split]].
  - destruct (list_foundation_models client) as [response|message] eqn:E.
    + rewrite (run_primary_ok _ _ _ _ _ E). cbn. split; [discriminate|].
      intros (message & H). discriminate H.
    + rewrite (run_primary_failure _ _ _ _ _ E). cbn. split; [|reflexivity].
      intros _. now exists message.
  - intros message E. now apply run_primary_failure.
  - intros response E. destruct (Hstderr _ E) as [H1 H2].
    rewrite (run_primary_ok _ _ _ _ _ E) in *. cbn [fst]. now repeat split.
  - intros response message E Eprof.
    pose proof (cri_models_of_error _ _ Eprof) as Hcri.
    split; [assumption|].
    rewrite (run_primary_ok _ _ _ _ _ E). cbn [fst snd Py.stdout Py.exit_code].
    split; [reflexivity|]. split.
    + unfold selected_models. rewrite (all_models_without_cri _ _ Hcri), Hcri.
      destruct show_cross_region_only; [now rewrite filter_no_cri|].
      now destruct (native_models_of response).
    + rewrite Hcri. apply Forall_forall. reflexivity.
Qed.

Lemma exit_status_and_degradation_witness :
  let a_foo := mkModel (Some "a.foo") (Some "A") (Some ["TEXT"]) (Some ["TEXT"]) in
  let degraded := mkClient (ApiOk (mkModelsResponse (Some [a_foo]))) (ApiError "AccessDenied") in
  let failing := mkClient (ApiError "ExpiredToken") (ApiError "ExpiredToken") in
  run failing "us-west-2" false true
  = (Py.SysExit 1%Z, Py.mkStreams [] ["Error listing models: ExpiredToken"])
  /\ Py.stdout (snd (run degraded "us-west-2" false false))
     = table_lines PyDict.empty (full_title "us-west-2") [a_foo].
Proof.
  cbv zeta. split.
  - apply (proj1 (proj2 (exit_status_and_degradation
                           (mkClient (ApiError "ExpiredToken") (ApiError "ExpiredToken"))
                           "us-west-2" false true)) "ExpiredToken").
    reflexivity.
  - apply (proj2 (proj2 (proj2 (exit_status_and_degradation
                                  (mkClient (ApiOk (mkModelsResponse
                                                      (Some [mkModel (Some "a.foo") (Some "A")
                                                                     (Some ["TEXT"]) (Some ["TEXT"])])))
                                            (ApiError "AccessDenied"))
                                  "us-west-2" false false)))
             (mkModelsResponse (Some [mkModel (Some "a.foo") (Some "A")
                                              (Some ["TEXT"]) (Some ["TEXT"])]))
             "AccessDenied" eq_refl eq_refl).
Defined.

(** C8: with the flag set, as soon as no model of the combined list has its
    identifier among the keys of the mapping (in particular when the mapping
    has size 0), standard output is exactly the CRI notice for the region,
    no table is printed and the exit code is 0. *)
Theorem no_cri_models_notice (client : BedrockClient) (region : string) (debug : bool)
    (response : FoundationModelsResponse) :
  list_foundation_models client = ApiOk response ->
  let result := run client region true debug in
  let filtered :=
    filter (fun m => PyDict.mem (model_key m) (cri_models_of client))
           (all_models_of client response) in
  (filtered = [] ->
   Py.stdout (snd result) = [no_cri_message region]
   /\ fst result = Py.Normal tt
   /\ Py.exit_code (fst result) = 0%Z)
  /\ (List.length (cri_models_of client) = 0 -> filtered = [])
  /\ no_cri_message region
     = "No models with Cross-Region Inference available in region: " ++ region.
Proof.
  intros Hok. cbv zeta. split; [|split; [|reflexivity]].
  - intros Hnil. rewrite (run_primary_ok _ _ _ _ _ Hok).
    unfold selected_models. rewrite Hnil. now repeat split.
  - intros Hlen. apply length_zero_iff_nil in Hlen. rewrite Hlen.
    apply filter_no_cri.
Qed.

Lemma no_cri_models_notice_witness :
  let a_foo := mkModel (Some "a.foo") (Some "A") (Some ["TEXT"]) (Some ["TEXT"]) in
  let response := mkModelsResponse (Some [a_foo]) in
  let client := mkClient (ApiOk response) (ApiOk (mkProfilesResponse (Some [mkProfile (Some "apac.a.foo")]))) in
  list_foundation_models client = ApiOk response
  /\ List.length (cri_models_of client) = 0
  /\ Py.stdout (snd (run client "eu-west-1" true true))
     = ["No models with Cross-Region Inference available in region: eu-west-1"].
Proof.
  intros a_foo response client.
  split; [reflexivity|]. split; [reflexivity|].
  apply (proj1 (no_cri_models_notice client "eu-west-1" true response eq_refl)).
  reflexivity.
Defined.

(** With the flag set, an empty catalog and an empty mapping give the CRI
    notice, not the no-models notice. *)
Lemma empty_catalog_with_flag :
  let response := mkModelsResponse (Some []) in
  let client := mkClient (ApiOk response) (ApiOk (mkProfilesResponse (Some []))) in
  native_models_of response = []
  /\ cri_models_of client = PyDict.empty
  /\ run client "us-west-2" true false
     = (Py.Normal tt, Py.mkStreams [no_cri_message "us-west-2"] [])
  /\ Py.stdout (snd (run client "us-west-2" true false)) <> [no_models_message "us-west-2"].
Proof.
  cbv zeta. repeat split. vm_compute. discriminate.
Qed.

(** C9, amended: standard output is exactly the no-models notice if and
    only if the primary call succeeded, the flag is unset, the native
    catalog is empty and the mapping is empty; the operation then comes back
    normally without a table. *)
Theorem no_models_notice (client : BedrockClient) (region : string)
    (show_cross_region_only debug : bool) :
  let result := run client region show_cross_region_only debug in
  (Py.stdout (snd result) = [no_models_message region] <->
   exists response,
     list_foundation_models client = ApiOk response
     /\ show_cross_region_only = false
     /\ native_models_of response = []
     /\ cri_models_of client = PyDict.empty)
  /\ (Py.stdout (snd result) = [no_models_message region] ->
      fst result = Py.Normal tt /\ Py.exit_code (fst result) = 0%Z)
  /\ no_models_message region = "No models found in region: " ++ region.
Proof.
  cbv zeta. split; [|split; [|reflexivity]].
  - split.
    + destruct (list_foundation_models client) as [response|message] eqn:E.
      * rewrite (run_primary_ok _ _ _ _ _ E). cbn [snd Py.stdout].
        destruct (selected_models client response show_cross_region_only) as [|m ms] eqn:Es.
        -- destruct show_cross_region_only.
           ++ intros H. exfalso. apply (notices_differ region). congruence.
           ++ intros _. exists response. cbn in Es. apply all_models_nil in Es.
              destruct Es. now repeat split.
        -- intros H. now apply table_lines_not_singleton in H.
      * rewrite (run_primary_failure _ _ _ _ _ E). discriminate.
    + intros (response & E & -> & Hn & Hc).
      rewrite (run_primary_ok _ _ _ _ _ E). cbn [snd Py.stdout selected_models].
      now rewrite (proj2 (all_models_nil client response) (conj Hn Hc)).
  - destruct (list_foundation_models client) as [response|message] eqn:E.
    + rewrite (run_primary_ok _ _ _ _ _ E). now split.
    + rewrite (run_primary_failure _ _ _ _ _ E). discriminate.
Qed.

Lemma no_models_notice_witness :
  let response := mkModelsResponse None in
  let client := mkClient (ApiOk response) (ApiError "AccessDenied") in
  Py.stdout (snd (run client "ap-south-1" false true))
  = ["No models found in region: ap-south-1"].
Proof.
  cbv zeta.
  apply (proj2 (proj1 (no_models_notice (mkClient (ApiOk (mkModelsResponse None))
                                                  (ApiError "AccessDenied"))
                                        "ap-south-1" false true))).
  exists (mkModelsResponse None). repeat split.
Defined.

(** * Further properties of the script *)

(** ** The normaliser and the extractor *)

Section Helpers.

Lemma startswith_append (p rest : string) : PyStr.startswith (p ++ rest) p = true.
Proof.
  unfold PyStr.startswith.
  induction p as [|c p IH]; cbn; [now destruct rest|].
  destruct (ascii_dec c c) as [_|Hne]; [exact IH | now elim Hne].
Qed.

Lemma startswith_slice (s p : string) :
  PyStr.startswith s p = true -> s = p ++ PyStr.slice_from (String.length p) s.
Proof.
  unfold PyStr.startswith. revert s.
  induction p as [|c p IH]; intros s H; [reflexivity|].
  destruct s as [|d s]; [discriminate|]. cbn in H.
  destruct (ascii_dec c d) as [<-|_]; [|discriminate].
  cbn. f_equal. now apply IH.
Qed.

Lemma extract_cri_loop_inverse (prefixes : list string) (profile_id : string)
    (cri_type base_id : option string) :
  extract_cri_loop prefixes profile_id = (cri_type, base_id) ->
  (cri_type = None /\ base_id = None /\
   forall prefix, In prefix prefixes -> PyStr.startswith profile_id prefix = false)
  \/ (exists prefix base,
         In prefix prefixes /\ profile_id = prefix ++ base /\
         cri_type = Some (PyStr.upper (PyStr.drop_last prefix)) /\ base_id = Some base).
Proof.
  induction prefixes as [|p ps IH]; cbn.
  - intros [= <- <-]. left. repeat split. intros prefix [].
  - destruct (PyStr.startswith profile_id p) eqn:E.
    + intros [= <- <-]. right.
      exists p, (PyStr.slice_from (String.length p) profile_id).
      repeat split; [now left | now apply startswith_slice].
    + intros H. destruct (IH H) as [(-> & -> & Hall)|(prefix & base & Hin & rest)].
      * left. repeat split. intros prefix [<-|Hin]; [assumption | now apply Hall].
      * right. exists prefix, base. split; [now right | assumption].
Qed.

End Helpers.

(** X1: the normaliser never removes anything but one enumerated suffix
    with its colon: the result is the identifier itself, or the identifier
    is the result followed by ":" and an enumerated suffix. The result is
    therefore a prefix of the identifier and never longer. *)
Theorem get_base_model_id_only_strips (model_id : string) :
  (get_base_model_id model_id = model_id
   \/ exists suffix,
        In suffix context_window_suffixes /\
        model_id = get_base_model_id model_id ++ ":" ++ suffix)
  /\ PyStr.startswith model_id (get_base_model_id model_id) = true
  /\ String.length (get_base_model_id model_id) <= String.length model_id.
Proof.
  destruct (get_base_model_id_cases model_id) as [[E _]|(base & suffix & E & Hin & Hb)].
  - rewrite E. split; [now left|]. split; [|reflexivity].
    rewrite <- (append_nil_r model_id) at 1. apply startswith_append.
  - rewrite Hb. split; [right; now exists suffix|]. rewrite E. split.
    + apply startswith_append.
    + rewrite length_append. lia.
Qed.

(** X2: the extractor can be read backwards. Its two results are both
    None, and then the identifier starts with none of the routing prefixes,
    or both present, and then the identifier is a routing prefix followed by
    exactly the returned base id, the returned type being that prefix without
    its dot in upper case. The type is one of US, EU, JP, AU, GLOBAL. *)
Theorem extract_cri_info_inverse (profile_id : string) (cri_type base_id : option string) :
  extract_cri_info profile_id = (cri_type, base_id) ->
  (cri_type = None /\ base_id = None /\
   forall prefix, In prefix cri_prefixes -> PyStr.startswith profile_id prefix = false)
  \/ (exists prefix base type,
         In prefix cri_prefixes /\ profile_id = prefix ++ base /\
         type = PyStr.upper (PyStr.drop_last prefix) /\
         In type ["US"; "EU"; "JP"; "AU"; "GLOBAL"] /\
         cri_type = Some type /\ base_id = Some base).
Proof.
  intros H. apply extract_cri_loop_inverse in H.
  destruct H as [H|(prefix & base & Hin & E & Ht & Hb)]; [now left|].
  right. exists prefix, base, (PyStr.upper (PyStr.drop_last prefix)).
  repeat split; try assumption.
  change ["US"; "EU"; "JP"; "AU"; "GLOBAL"] with cri_types.
  unfold cri_types.
  now apply (in_map (fun p => PyStr.upper (PyStr.drop_last p))).
Qed.

Lemma extract_cri_info_inverse_witness :
  exists prefix base type,
    In prefix cri_prefixes /\ "eu.amazon.nova-lite-v1:0" = prefix ++ base /\
    type = PyStr.upper (PyStr.drop_last prefix) /\
    In type ["US"; "EU"; "JP"; "AU"; "GLOBAL"] /\
    Some "EU" = Some type /\ Some "amazon.nova-lite-v1:0" = Some base.
Proof.
  destruct (extract_cri_info_inverse "eu.amazon.nova-lite-v1:0"
              (Some "EU") (Some "amazon.nova-lite-v1:0") eq_refl)
    as [(H & _)|H]; [discriminate H | exact H].
Defined.

(** ** The mapping, profile by profile *)

Section MappingFacts.

Lemma cri_models_of_fold (client : BedrockClient) :
  cri_models_of client = fold_left recorded (profiles_of client) PyDict.empty.
Proof.
  unfold profiles_of.
  destruct (list_inference_profiles client) as [profiles_response|message] eqn:E.
  - now apply cri_models_of_ok.
  - now rewrite (cri_models_of_error _ _ E).
Qed.

Lemma cri_prefixes_not_empty (prefix rest : string) :
  In prefix cri_prefixes -> prefix ++ rest <> "".
Proof.
  unfold cri_prefixes. cbn. intros H.
  repeat (destruct H as [<-|H]; [discriminate|]). contradiction.
Qed.

Lemma cri_types_not_empty (prefix : string) :
  In prefix cri_prefixes -> PyStr.upper (PyStr.drop_last prefix) <> "".
Proof.
  unfold cri_prefixes. cbn. intros H.
  repeat (destruct H as [<-|H]; [discriminate|]). contradiction.
Qed.

(** A profile summary whose identifier is a routing prefix followed by a
    non-empty base id is recorded under that base id; any other summary
    leaves the mapping alone. *)
Lemma recorded_match (d : PyDict.t) (profile : InferenceProfileSummary)
    (prefix base : string) :
  In prefix cri_prefixes -> base <> "" ->
  inferenceProfileId profile = Some (prefix ++ base) ->
  recorded d profile = PyDict.set base (PyStr.upper (PyStr.drop_last prefix)) d.
Proof.
  intros Hin Hbase Hid.
  unfold recorded, value_of, record_profile. rewrite Hid. cbn [get_or].
  rewrite (extract_cri_info_match _ _ Hin). cbn.
  apply cri_types_not_empty in Hin.
  apply String.eqb_neq in Hin, Hbase. now rewrite Hin, Hbase.
Qed.

Lemma recorded_inverse (d : PyDict.t) (profile : InferenceProfileSummary) :
  recorded d profile = d
  \/ exists prefix base,
       In prefix cri_prefixes /\ base <> "" /\
       inferenceProfileId profile = Some (prefix ++ base) /\
       recorded d profile = PyDict.set base (PyStr.upper (PyStr.drop_last prefix)) d.
Proof.
  destruct (recorded_cases d profile) as [H|(b & t & Hb & Ht & E & H)]; [now left|].
  right. apply extract_cri_loop_inverse in E.
  destruct E as [(E & _)|(prefix & base & Hin & Hid & [= ->] & [= ->])]; [discriminate|].
  exists prefix, base. repeat split; try assumption.
  destruct (inferenceProfileId profile) as [id|]; cbn in Hid; [now rewrite Hid|].
  symmetry in Hid. now apply cri_prefixes_not_empty in Hid.
Qed.

Lemma dict_keys_set_In (k v k' : string) (d : PyDict.t) :
  In k' (PyDict.keys (PyDict.set k v d)) <-> k' = k \/ In k' (PyDict.keys d).
Proof.
  rewrite dict_keys_set. destruct (PyDict.mem k d) eqn:E.
  - apply dict_mem_In in E. split; [now right | intros [->|H]; assumption].
  - rewrite in_app_iff. cbn. intuition congruence.
Qed.

Lemma dict_get_set_same (k v default : string) (d : PyDict.t) :
  PyDict.get k (PyDict.set k v d) default = v.
Proof.
  induction d as [|[k' v'] d IH]; cbn.
  - now rewrite String.eqb_refl.
  - destruct (k' =? k) eqn:E; cbn; [now rewrite String.eqb_refl | now rewrite E].
Qed.

Lemma dict_get_set_other (k v k' default : string) (d : PyDict.t) :
  k' <> k -> PyDict.get k' (PyDict.set k v d) default = PyDict.get k' d default.
Proof.
  intros Hne. induction d as [|[k0 v0] d IH]; cbn.
  - apply not_eq_sym, String.eqb_neq in Hne. now rewrite Hne.
  - destruct (String.eqb_spec k0 k) as [->|Hk]; cbn.
    + apply not_eq_sym, String.eqb_neq in Hne. now rewrite Hne.
    + now rewrite IH.
Qed.

Lemma dict_get_absent (k default : string) (d : PyDict.t) :
  PyDict.mem k d = false -> PyDict.get k d default = default.
Proof.
  induction d as [|[k' v'] d IH]; cbn; [reflexivity|].
  destruct (k' =? k); cbn; [discriminate | exact IH].
Qed.

Lemma dict_get_present (k default : string) (d : PyDict.t) :
  PyDict.mem k d = true -> In (k, PyDict.get k d default) (PyDict.items d).
Proof.
  induction d as [|[k' v'] d IH]; cbn; [discriminate|].
  destruct (String.eqb_spec k' k) as [->|_]; cbn; [now left | right; now apply IH].
Qed.

Lemma profile_fold_keys (profiles : list InferenceProfileSummary) (d : PyDict.t)
    (k : string) :
  In k (PyDict.keys (fold_left recorded profiles d)) <->
  In k (PyDict.keys d)
  \/ (k <> "" /\
      exists profile prefix,
        In profile profiles /\ In prefix cri_prefixes /\
        inferenceProfileId profile = Some (prefix ++ k)).
Proof.
  revert d. induction profiles as [|p ps IH]; intros d; cbn.
  - split; [now left | intros [H|(_ & q & ? & [] & _)]; assumption].
  - rewrite IH. split.
    + intros [H|(Hk & q & prefix & Hq & Hin & Hid)].
      * destruct (recorded_inverse d p) as [E|(prefix & base & Hin & Hb & Hid & E)];
          rewrite E in H; [now left|].
        apply dict_keys_set_In in H. destruct H as [->|H]; [|now left].
        right. split; [assumption|]. exists p, prefix. split; [now left | now split].
      * right. split; [assumption|]. exists q, prefix. split; [now right | now split].
    + intros [H|(Hk & q & prefix & [<-|Hq] & Hin & Hid)].
      * left. destruct (recorded_inverse d p) as [E|(prefix & base & _ & _ & _ & E)];
          rewrite E; [assumption|].
        apply dict_keys_set_In. now right.
      * left. rewrite (recorded_match d _ _ _ Hin Hk Hid).
        apply dict_keys_set_In. now left.
      * right. split; [assumption|]. now exists q, prefix.
Qed.

Lemma profile_fold_values (profiles : list InferenceProfileSummary) (d : PyDict.t) :
  Forall (fun item => In (snd item) cri_types) d ->
  Forall (fun item => In (snd item) cri_types) (fold_left recorded profiles d).
Proof.
  revert d. induction profiles as [|p ps IH]; intros d H; cbn; [assumption|].
  apply IH.
  destruct (recorded_inverse d p) as [->|(prefix & base & Hin & _ & _ & ->)];
    [assumption|].
  apply Forall_forall. intros item Hitem.
  destruct (dict_set_items _ _ _ _ Hitem) as [->|Hold].
  - cbn [snd]. unfold cri_types.
    now apply (in_map (fun q => PyStr.upper (PyStr.drop_last q))).
  - now apply (proj1 (Forall_forall _ _) H).
Qed.

(** Later summaries that do not carry the base id [k] leave its entry
    untouched. *)
Lemma profile_fold_get_other (profiles : list InferenceProfileSummary) (d : PyDict.t)
    (k default : string) :
  (forall profile prefix, In profile profiles -> In prefix cri_prefixes ->
                          inferenceProfileId profile <> Some (prefix ++ k)) ->
  PyDict.get k (fold_left recorded profiles d) default = PyDict.get k d default.
Proof.
  revert d. induction profiles as [|p ps IH]; intros d H; cbn; [reflexivity|].
  rewrite IH by (intros q prefix Hq; apply H; now right).
  destruct (recorded_inverse d p) as [->|(prefix & base & Hin & _ & Hid & ->)];
    [reflexivity|].
  apply dict_get_set_other. intros ->. now apply (H p prefix (or_introl eq_refl) Hin).
Qed.

End MappingFacts.

(** X3: a base id is a key of the mapping exactly when it is not empty and
    some profile summary of the answer has an identifier made of a routing
    prefix followed by that base id. Summaries without an identifier, or
    with another kind of identifier, contribute nothing. *)
Theorem cri_models_keys (client : BedrockClient) (base_id : string) :
  In base_id (PyDict.keys (cri_models_of client)) <->
  base_id <> "" /\
  exists profile prefix,
    In profile (profiles_of client) /\ In prefix cri_prefixes /\
    inferenceProfileId profile = Some (prefix ++ base_id).
Proof.
  rewrite cri_models_of_fold, profile_fold_keys. cbn. tauto.
Qed.

(** X4: when several profiles carry the same base id, the last one
    decides: the mapping gives a base id the type of the last summary of
    the answer that carries it. *)
Theorem cri_models_last_wins (client : BedrockClient)
    (before after : list InferenceProfileSummary) (profile : InferenceProfileSummary)
    (prefix base_id default : string) :
  profiles_of client = (before ++ profile :: after)%list ->
  In prefix cri_prefixes ->
  base_id <> "" ->
  inferenceProfileId profile = Some (prefix ++ base_id) ->
  (forall later prefix', In later after -> In prefix' cri_prefixes ->
                         inferenceProfileId later <> Some (prefix' ++ base_id)) ->
  PyDict.get base_id (cri_models_of client) default = PyStr.upper (PyStr.drop_last prefix).
Proof.
  intros Hprofiles Hin Hbase Hid Hlater.
  rewrite cri_models_of_fold, Hprofiles, fold_left_app. cbn [fold_left].
  rewrite (profile_fold_get_other _ _ _ _ Hlater).
  rewrite (recorded_match _ _ _ _ Hin Hbase Hid).
  apply dict_get_set_same.
Qed.

Lemma cri_models_last_wins_witness :
  let client :=
    mkClient (ApiError "unused")
             (ApiOk (mkProfilesResponse
                       (Some [mkProfile (Some "us.meta.llama3"); mkProfile (Some "eu.meta.llama3");
                              mkProfile (Some "us.other")]))) in
  PyDict.get "meta.llama3" (cri_models_of client) "-" = "EU".
Proof.
  intros client.
  apply (cri_models_last_wins client [mkProfile (Some "us.meta.llama3")]
           [mkProfile (Some "us.other")] (mkProfile (Some "eu.meta.llama3"))
           "eu." "meta.llama3" "-");
    [reflexivity | cbn; tauto | discriminate | reflexivity |].
  intros later prefix' [<-|[]] Hin. cbn in Hin.
  repeat (destruct Hin as [<-|Hin]; [discriminate|]). contradiction.
Defined.

(** X5: the CRI type looked up for an identifier is one of US, EU, JP, AU,
    GLOBAL when the identifier is a key of the mapping, and the dash
    otherwise; so a row shows the dash exactly for identifiers outside the
    mapping. *)
Theorem cri_cell_values (client : BedrockClient) (model_id : string) :
  let cell := PyDict.get model_id (cri_models_of client) "-" in
  (PyDict.mem model_id (cri_models_of client) = true ->
   In cell ["US"; "EU"; "JP"; "AU"; "GLOBAL"])
  /\ (PyDict.mem model_id (cri_models_of client) = false -> cell = "-")
  /\ (cell = "-" <-> PyDict.mem model_id (cri_models_of client) = false).
Proof.
  cbv zeta.
  assert (Hin : PyDict.mem model_id (cri_models_of client) = true ->
                In (PyDict.get model_id (cri_models_of client) "-")
                   ["US"; "EU"; "JP"; "AU"; "GLOBAL"]).
  { intros Hmem. apply (dict_get_present _ "-") in Hmem.
    pose proof (profile_fold_values (profiles_of client) PyDict.empty (Forall_nil _)) as Hv.
    rewrite <- cri_models_of_fold in Hv.
    apply (proj1 (Forall_forall _ _) Hv) in Hmem. exact Hmem. }
  split; [assumption|]. split; [apply dict_get_absent|].
  split; [|apply dict_get_absent].
  intros Hcell. destruct (PyDict.mem model_id (cri_models_of client)); [|reflexivity].
  specialize (Hin eq_refl). rewrite Hcell in Hin. cbn in Hin.
  repeat (destruct Hin as [Hin|Hin]; [discriminate Hin|]). contradiction.
Qed.

Lemma cri_cell_values_witness :
  let client :=
    mkClient (ApiError "unused")
             (ApiOk (mkProfilesResponse (Some [mkProfile (Some "global.cohere.embed")]))) in
  In (PyDict.get "cohere.embed" (cri_models_of client) "-") ["US"; "EU"; "JP"; "AU"; "GLOBAL"]
  /\ PyDict.get "cohere.rerank" (cri_models_of client) "-" = "-".
Proof.
  intros client. split.
  - apply (proj1 (cri_cell_values client "cohere.embed")). reflexivity.
  - apply (proj1 (proj2 (cri_cell_values client "cohere.rerank"))). reflexivity.
Defined.

(** ** Streams and shapes of the output *)

Section OutputFacts.

Lemma debug_lines_verbose (client : BedrockClient) :
  debug_lines client true =
  match list_inference_profiles client with
  | ApiOk _ => map profile_debug_line (profiles_of client)
  | ApiError message => ["DEBUG: Error getting profiles: " ++ message]
  end.
Proof.
  unfold debug_lines, profiles_of, build_cri_models, Py.try_except, Py.bind.
  destruct (list_inference_profiles client) as [profiles_response|message]; cbn.
  - now rewrite profile_loop_run.
  - reflexivity.
Qed.

Lemma table_lines_length (cri_models : PyDict.t) (title : string)
    (models : list ModelSummary) :
  List.length (table_lines cri_models title models) = List.length models + 6.
Proof.
  unfold table_lines. rewrite !length_app, length_map. cbn. lia.
Qed.

End OutputFacts.

(** X6: the debug flag changes nothing but the error stream: the way the
    call ends, the exit code and standard output are the same with and
    without it. *)
Theorem debug_leaves_stdout_alone (client : BedrockClient) (region : string)
    (show_cross_region_only : bool) :
  fst (run client region show_cross_region_only true)
  = fst (run client region show_cross_region_only false)
  /\ Py.stdout (snd (run client region show_cross_region_only true))
     = Py.stdout (snd (run client region show_cross_region_only false)).
Proof.
  destruct (list_foundation_models client) as [response|message] eqn:E.
  - now rewrite !(run_primary_ok _ _ _ _ _ E).
  - now rewrite !(run_primary_failure _ _ _ _ _ E).
Qed.

(** X7: after a successful primary call, debug mode writes to the error
    stream one line per profile summary of the answer, recorded or not, in
    their order (or the single line "DEBUG: Error getting profiles: <message>"
    when the profile listing failed), followed by one line with the size and
    the contents of the mapping; without debug mode the error stream stays
    empty. *)
Theorem debug_stream_contents (client : BedrockClient) (region : string)
    (show_cross_region_only : bool) (response : FoundationModelsResponse) :
  list_foundation_models client = ApiOk response ->
  Py.stderr (snd (run client region show_cross_region_only true))
  = List.app
      (match list_inference_profiles client with
       | ApiOk _ => map profile_debug_line (profiles_of client)
       | ApiError message => ["DEBUG: Error getting profiles: " ++ message]
       end)
      ["DEBUG: Found " ++ PyStr.str_of_nat (List.length (cri_models_of client)) ++
       " CRI models: " ++ PyDict.repr (cri_models_of client)]
  /\ Py.stderr (snd (run client region show_cross_region_only false)) = [].
Proof.
  intros E. rewrite !(run_primary_ok _ _ _ _ _ E). cbn [snd Py.stderr].
  now rewrite debug_lines_verbose, debug_lines_quiet.
Qed.

Lemma debug_stream_contents_witness :
  let client :=
    mkClient (ApiOk (mkModelsResponse (Some [])))
             (ApiOk (mkProfilesResponse
                       (Some [mkProfile (Some "us.a.b"); mkProfile None]))) in
  Py.stderr (snd (run client "us-east-1" false true))
  = ["DEBUG: profile_id=us.a.b, cri_type=US, base_id=a.b";
     "DEBUG: profile_id=, cri_type=None, base_id=None";
     "DEBUG: Found 1 CRI models: {'a.b': 'US'}"].
Proof.
  intros client.
  apply (proj1 (debug_stream_contents client "us-east-1" false
                  (mkModelsResponse (Some [])) eq_refl)).
Defined.

(** X8: standard output is empty (primary failure), a single notice, or a
    table with at least one row, that is at least seven lines; the operation
    never prints a table without rows. *)
Theorem never_an_empty_table (client : BedrockClient) (region : string)
    (show_cross_region_only debug : bool) :
  let out := Py.stdout (snd (run client region show_cross_region_only debug)) in
  (forall cri_models title, out <> table_lines cri_models title [])
  /\ (out = []
      \/ out = [no_cri_message region]
      \/ out = [no_models_message region]
      \/ exists response models,
           list_foundation_models client = ApiOk response /\
           models <> [] /\
           Permutation models (selected_models client response show_cross_region_only) /\
           out = table_lines (cri_models_of client)
                             (if show_cross_region_only
                              then cri_title region else full_title region)
                             models /\
           List.length out = List.length models + 6).
Proof.
  cbv zeta.
  destruct (list_foundation_models client) as [response|message] eqn:E.
  - rewrite (run_primary_ok _ _ _ _ _ E). cbn [snd Py.stdout].
    destruct (selected_models client response show_cross_region_only) as [|m ms] eqn:Es.
    + split; [intros cri_models title H; discriminate H|].
      destruct show_cross_region_only; tauto.
    + pose proof (sort_by_perm sort_key (m :: ms)) as Hperm.
      split.
      * intros cri_models title H.
        apply (f_equal (@List.length string)) in H.
        rewrite !table_lines_length, <- (Permutation_length Hperm) in H.
        cbn in H. lia.
      * do 3 right. exists response, (sort_by sort_key (m :: ms)).
        split; [reflexivity|]. split.
        -- intros Hnil. rewrite Hnil in Hperm. symmetry in Hperm.
           now apply Permutation_nil in Hperm.
        -- rewrite Es. split; [now symmetry|].
           split; [reflexivity | apply table_lines_length].
  - rewrite (run_primary_failure _ _ _ _ _ E). cbn [snd Py.stdout].
    split; [intros cri_models title H; discriminate H | now left].
Qed.

(** ** Sorting and the two views *)

Section SortMore.

Lemma string_ltb_irrefl (s : string) : (s <? s) = false.
Proof. unfold String.ltb. now rewrite string_compare_refl. Qed.

Lemma string_leb_refl (s : string) : (s <=? s) = true.
Proof. unfold String.leb. now rewrite string_compare_refl. Qed.

Lemma key_le_refl (a : string * string) : key_le a a.
Proof. right. split; [reflexivity | apply string_leb_refl]. Qed.

(** A key that is not above another is never found below it by the
    comparison of the sort. *)
Lemma key_le_not_lt (a b : string * string) : key_le a b -> tuple_lt b a = false.
Proof.
  unfold key_le, tuple_lt, String.ltb, String.leb.
  intros [H|[E H]].
  - destruct (String.eqb_spec (fst b) (fst a)) as [E|_].
    + rewrite E, string_compare_refl in H. discriminate.
    + rewrite String.compare_antisym.
      now destruct (String.compare (fst a) (fst b)).
  - rewrite E, String.eqb_refl, String.compare_antisym.
    now destruct (String.compare (snd a) (snd b)).
Qed.

Context {A : Type} (key : A -> string * string).

Lemma insert_by_front (x : A) (l : list A) :
  Forall (key_le (key x)) (map key l) -> insert_by key x l = x :: l.
Proof.
  destruct l as [|y l]; [reflexivity|]. cbn. intros H.
  inversion_clear H as [|? ? Hy _]. now rewrite (key_le_not_lt _ _ Hy).
Qed.

Lemma sort_by_fixed (l : list A) :
  StronglySorted key_le (map key l) -> sort_by key l = l.
Proof.
  induction l as [|x l IH]; cbn; [reflexivity|]. intros H.
  inversion_clear H as [|? ? Hl Hx]. rewrite (IH Hl). now apply insert_by_front.
Qed.

Lemma filter_insert_by (p : A -> bool) (x : A) (l : list A) :
  StronglySorted key_le (map key l) ->
  filter p (insert_by key x l) =
  if p x then insert_by key x (filter p l) else filter p l.
Proof.
  induction l as [|y l IH]; intros Hsorted.
  - cbn. now destruct (p x).
  - cbn [map] in Hsorted. inversion_clear Hsorted as [|? ? Hl Hy].
    cbn [insert_by]. destruct (tuple_lt (key y) (key x)) eqn:E.
    + cbn [filter]. rewrite (IH Hl).
      destruct (p x), (p y); cbn [insert_by]; rewrite ?E; reflexivity.
    + cbn [filter]. destruct (p x) eqn:Ex; [|reflexivity].
      destruct (p y); cbn [insert_by]; [now rewrite E|].
      symmetry. apply insert_by_front.
      apply tuple_lt_false in E.
      apply Forall_forall. intros k Hk. apply in_map_iff in Hk.
      destruct Hk as (z & <- & Hz). apply filter_In in Hz. destruct Hz as [Hz _].
      apply (key_le_trans _ _ _ E).
      apply (proj1 (Forall_forall _ _) Hy). now apply in_map.
Qed.

Lemma filter_sort_by (p : A -> bool) (l : list A) :
  filter p (sort_by key l) = sort_by key (filter p l).
Proof.
  induction l as [|x l IH]; [reflexivity|].
  cbn [sort_by filter]. rewrite filter_insert_by by apply sort_by_sorted.
  rewrite IH. now destruct (p x).
Qed.

End SortMore.

(** X9: the cross-region view is the full view with the rows outside the
    mapping struck out: the models it renders are those of the full table
    whose identifier is a key of the mapping, in the same order. *)
Theorem cross_region_view_filters_full_view (client : BedrockClient)
    (response : FoundationModelsResponse) (region : string) (debug : bool) :
  let in_mapping m := PyDict.mem (model_key m) (cri_models_of client) in
  rendered_models client response true
  = filter in_mapping (rendered_models client response false)
  /\ (list_foundation_models client = ApiOk response ->
      filter in_mapping (rendered_models client response false) <> [] ->
      Py.stdout (snd (run client region true debug))
      = table_lines (cri_models_of client) (cri_title region)
                    (filter in_mapping (rendered_models client response false))).
Proof.
  cbv zeta. unfold rendered_models.
  assert (E : sort_by sort_key (selected_models client response true)
              = filter (fun m => PyDict.mem (model_key m) (cri_models_of client))
                       (sort_by sort_key (selected_models client response false)))
    by (symmetry; apply filter_sort_by).
  split; [exact E|].
  intros Hok Hne. rewrite <- E in *.
  rewrite (run_primary_ok _ _ _ _ _ Hok). cbn [snd Py.stdout].
  destruct (selected_models client response true); [now elim Hne | reflexivity].
Qed.

Lemma cross_region_view_filters_full_view_witness :
  let model p i := mkModel (Some i) (Some p) (Some ["TEXT"]) (Some ["TEXT"]) in
  let response := mkModelsResponse (Some [model "Meta" "meta.x"; model "Amazon" "amazon.y"]) in
  let client :=
    mkClient (ApiOk response)
             (ApiOk (mkProfilesResponse
                       (Some [mkProfile (Some "us.meta.x"); mkProfile (Some "eu.cohere.z")]))) in
  Py.stdout (snd (run client "us-east-1" true false))
  = table_lines [("meta.x", "US"); ("cohere.z", "EU")] (cri_title "us-east-1")
                [mkModel (Some "cohere.z") (Some "Cohere") (Some []) (Some []);
                 model "Meta" "meta.x"].
Proof.
  intros model response client.
  apply (proj2 (cross_region_view_filters_full_view client response "us-east-1" false));
    [reflexivity | vm_compute; discriminate].
Defined.

(** X10: the sort is stable and leaves an ordered selection alone: models
    with the same provider and identifier are rendered in the order of the
    selection, a selection already in ascending key order is rendered as it
    is, and sorting a second time changes nothing. *)
Theorem rendering_order_is_stable (client : BedrockClient)
    (response : FoundationModelsResponse) (show_cross_region_only : bool) :
  let selection := selected_models client response show_cross_region_only in
  (forall provider id,
      let same_key m :=
        (fst (sort_key m) =? provider) && (snd (sort_key m) =? id) in
      filter same_key (rendered_models client response show_cross_region_only)
      = filter same_key selection)
  /\ (StronglySorted key_le (map sort_key selection) ->
      rendered_models client response show_cross_region_only = selection)
  /\ sort_by sort_key (rendered_models client response show_cross_region_only)
     = rendered_models client response show_cross_region_only.
Proof.
  cbv zeta. unfold rendered_models. split; [|split].
  - intros provider id. rewrite filter_sort_by. apply sort_by_fixed.
    induction (selected_models client response show_cross_region_only) as [|m ms IH];
      cbn [filter]; [constructor|].
    destruct ((fst (sort_key m) =? provider) && (snd (sort_key m) =? id)) eqn:E;
      [|exact IH].
    cbn [map]. constructor; [exact IH|].
    apply andb_true_iff in E. destruct E as [E1 E2].
    apply String.eqb_eq in E1, E2.
    apply Forall_forall. intros k Hk. apply in_map_iff in Hk.
    destruct Hk as (z & <- & Hz). apply filter_In in Hz. destruct Hz as [_ Hz].
    apply andb_true_iff in Hz. destruct Hz as [Z1 Z2].
    apply String.eqb_eq in Z1, Z2.
    right. split; [congruence|]. rewrite E2, Z2. apply string_leb_refl.
  - apply sort_by_fixed.
  - apply sort_by_fixed, sort_by_sorted.
Qed.

Lemma rendering_order_is_stable_witness :
  let model p i text := mkModel (Some i) (Some p) (Some [text]) (Some ["TEXT"]) in
  let response :=
    mkModelsResponse (Some [model "A" "a1" "first"; model "A" "a1" "second"; model "B" "b1" "x"]) in
  let client := mkClient (ApiOk response) (ApiError "AccessDenied") in
  rendered_models client response false
  = [model "A" "a1" "first"; model "A" "a1" "second"; model "B" "b1" "x"].
Proof.
  intros model response client.
  apply (proj1 (proj2 (rendering_order_is_stable client response false))).
  vm_compute.
  repeat match goal with
         | |- StronglySorted _ _ => constructor
         | |- Forall _ _ => constructor
         | |- _ \/ _ => first [left; reflexivity | right; split; reflexivity]
         end.
Defined.

(** ** What the two views contain *)

Section ViewFacts.

Variables (client : BedrockClient) (response : FoundationModelsResponse).

Let in_mapping (m : ModelSummary) : bool := PyDict.mem (model_key m) (cri_models_of client).
Let native_ids : list string := map model_key (native_models_of response).
Let cri_only_ids : list string :=
  filter (fun k => negb (PyStr.mem k native_ids)) (PyDict.keys (cri_models_of client)).

Lemma all_models_eq :
  all_models_of client response
  = (native_models_of response ++ map cri_only_model cri_only_ids)%list.
Proof. apply combine_models_eq. Qed.

Lemma all_models_distinct :
  NoDup native_ids -> NoDup (map model_key (all_models_of client response)).
Proof.
  intros Hids. rewrite all_models_eq, map_app, model_key_cri_only.
  apply NoDup_app; [assumption | apply NoDup_filter, cri_models_of_well_formed |].
  intros k Hk Hin. apply filter_In in Hin. destruct Hin as [_ Hin].
  apply mem_In in Hk. fold native_ids in Hk. now rewrite Hk in Hin.
Qed.

Lemma all_models_cover_keys (k : string) :
  In k (PyDict.keys (cri_models_of client)) ->
  In k (map model_key (all_models_of client response)).
Proof.
  intros Hk. rewrite all_models_eq, map_app, model_key_cri_only. apply in_app_iff.
  destruct (PyStr.mem k native_ids) eqn:E.
  - left. now apply mem_In.
  - right. apply filter_In. split; [assumption | now rewrite E].
Qed.

Lemma filtered_ids (k : string) :
  In k (map model_key (filter in_mapping (all_models_of client response)))
  <-> In k (PyDict.keys (cri_models_of client)).
Proof.
  split.
  - intros H. apply in_map_iff in H. destruct H as (m & <- & Hm).
    apply filter_In in Hm. destruct Hm as [_ Hm]. now apply dict_mem_In.
  - intros Hk. pose proof (all_models_cover_keys k Hk) as H.
    apply in_map_iff in H. destruct H as (m & <- & Hm).
    apply in_map, filter_In. split; [assumption | now apply dict_mem_In].
Qed.

Lemma key_not_empty (k : string) :
  In k (PyDict.keys (cri_models_of client)) -> k <> "".
Proof.
  intros H. apply in_map_iff in H. destruct H as ([k' v] & <- & Hitem).
  destruct (cri_models_of_well_formed client) as [_ Hne].
  now apply (proj1 (Forall_forall _ _) Hne) in Hitem.
Qed.

Lemma cri_lookup_type (k : string) :
  PyDict.mem k (cri_models_of client) = true ->
  In (PyDict.get k (cri_models_of client) "-") cri_types.
Proof.
  intros Hmem. apply (dict_get_present _ "-") in Hmem.
  pose proof (profile_fold_values (profiles_of client) PyDict.empty (Forall_nil _)) as Hv.
  rewrite <- cri_models_of_fold in Hv.
  now apply (proj1 (Forall_forall _ _) Hv) in Hmem.
Qed.

End ViewFacts.

(** X11: every row of the cross-region view belongs to a model that has
    an identifier, this identifier is a non-empty key of the mapping, and
    the CRI cell of the row is one of US, EU, JP, AU, GLOBAL, never the
    dash. A model without identifier never appears in this view. *)
Theorem cross_region_rows_have_a_type (client : BedrockClient)
    (response : FoundationModelsResponse) :
  Forall (fun m =>
            exists id,
              modelId m = Some id /\ id <> "" /\
              In id (PyDict.keys (cri_models_of client)) /\
              In (PyDict.get (get_or (modelId m) "N/A") (cri_models_of client) "-")
                 ["US"; "EU"; "JP"; "AU"; "GLOBAL"])
         (rendered_models client response true).
Proof.
  apply Forall_forall. intros m Hm.
  apply (Permutation_in _ (Permutation_sym (sort_by_perm sort_key _))) in Hm.
  apply filter_In in Hm. destruct Hm as [_ Hmem].
  pose proof (proj1 (dict_mem_In _ _) Hmem) as Hkey.
  pose proof (key_not_empty _ _ Hkey) as Hne.
  pose proof (cri_lookup_type _ _ Hmem) as Htype.
  unfold model_key in *. destruct (modelId m) as [id|]; [|now elim Hne].
  exists id. now repeat split.
Qed.

(** X12: the full view drops nothing: every native model is rendered, and
    every key of the mapping is the identifier of a rendered model. The
    identifiers of the cross-region view are exactly the keys of the
    mapping. *)
Theorem views_cover_catalog_and_mapping (client : BedrockClient)
    (response : FoundationModelsResponse) :
  incl (native_models_of response) (rendered_models client response false)
  /\ incl (PyDict.keys (cri_models_of client))
          (map model_key (rendered_models client response false))
  /\ (forall k, In k (map model_key (rendered_models client response true))
                <-> In k (PyDict.keys (cri_models_of client))).
Proof.
  unfold rendered_models, selected_models. split; [|split].
  - intros m Hm. apply (Permutation_in _ (sort_by_perm sort_key _)).
    rewrite all_models_eq. apply in_app_iff. now left.
  - intros k Hk.
    apply (Permutation_in _ (Permutation_map model_key (sort_by_perm sort_key _))).
    now apply all_models_cover_keys.
  - intros k. rewrite <- (filtered_ids client response k). split; intros H.
    + now apply (Permutation_in _ (Permutation_sym
                                    (Permutation_map model_key (sort_by_perm sort_key _)))) in H.
    + now apply (Permutation_in _ (Permutation_map model_key (sort_by_perm sort_key _))).
Qed.

(** X13: the number of rows. The full view has one row per native model
    plus one per key of the mapping that is not a native identifier; when
    the native identifiers are pairwise distinct, the cross-region view has
    exactly as many rows as the mapping has keys. *)
Theorem row_counts (client : BedrockClient) (response : FoundationModelsResponse) :
  let native_ids := map model_key (native_models_of response) in
  List.length (rendered_models client response false)
  = List.length (native_models_of response)
    + List.length (filter (fun k => negb (PyStr.mem k native_ids))
                          (PyDict.keys (cri_models_of client)))
  /\ List.length (rendered_models client response true)
     <= List.length (rendered_models client response false)
  /\ (NoDup native_ids ->
      List.length (rendered_models client response true)
      = List.length (cri_models_of client)).
Proof.
  cbv zeta. unfold rendered_models.
  rewrite <- !(Permutation_length (sort_by_perm sort_key _)).
  unfold selected_models. split; [|split].
  - now rewrite all_models_eq, length_app, length_map.
  - apply filter_length_le.
  - intros Hids.
    rewrite <- (length_map model_key), <- (length_map fst (cri_models_of client)).
    apply Permutation_length, NoDup_Permutation.
    + apply filter_keeps_distinct_keys. now apply all_models_distinct.
    + apply cri_models_of_well_formed.
    + apply filtered_ids.
Qed.

Lemma row_counts_witness :
  let model p i := mkModel (Some i) (Some p) (Some ["TEXT"]) (Some ["TEXT"]) in
  let response := mkModelsResponse (Some [model "Meta" "meta.x"; model "Amazon" "amazon.y"]) in
  let client :=
    mkClient (ApiOk response)
             (ApiOk (mkProfilesResponse
                       (Some [mkProfile (Some "us.meta.x"); mkProfile (Some "eu.cohere.z");
                              mkProfile (Some "eu.meta.x")]))) in
  List.length (rendered_models client response true) = 2.
Proof.
  intros model response client.
  apply (proj2 (proj2 (row_counts client response))).
  vm_compute. repeat constructor; cbn; intuition discriminate.
Defined.

(** ** The text of a row, the synthesized provider, the routing prefixes *)

Section TextFacts.

Lemma repeat_char_length (c : ascii) (n : nat) : String.length (PyStr.repeat_char c n) = n.
Proof. induction n as [|n IH]; cbn; [reflexivity | now rewrite IH]. Qed.

Lemma ljust_length (width : nat) (s : string) :
  String.length (PyStr.ljust width s) = Nat.max width (String.length s).
Proof. unfold PyStr.ljust. rewrite length_append, repeat_char_length. lia. Qed.

Lemma table_row_length (cri_models : PyDict.t) (model : ModelSummary) :
  String.length (table_row cri_models model)
  = Nat.max 50 (String.length (get_or (modelId model) "N/A"))
    + Nat.max 15 (String.length (get_or (providerName model) "N/A"))
    + Nat.max 12 (String.length (PyDict.get (get_or (modelId model) "N/A") cri_models "-"))
    + Nat.max 8 (String.length (PyStr.join ", " (get_or (inputModalities model) [])))
    + Nat.max 8 (String.length (PyStr.join ", " (get_or (outputModalities model) [])))
    + 4.
Proof.
  unfold table_row. rewrite !length_append, !ljust_length. cbn [String.length]. lia.
Qed.










Lemma append_inv_head (p a b : string) : p ++ a = p ++ b -> a = b.
Proof. induction p as [|c p IH]; cbn; [trivial | intros [= H]; now apply IH]. Qed.

(** No identifier starts with two different routing prefixes. *)
Lemma cri_prefixes_exclusive (profile_id p q : string) :
  In p cri_prefixes -> In q cri_prefixes ->
  PyStr.startswith profile_id p = true -> PyStr.startswith profile_id q = true ->
  p = q.
Proof.
  intros Hp Hq Sp Sq. apply startswith_slice in Sp. rewrite Sp in Sq. clear Sp.
  unfold cri_prefixes in Hp, Hq. cbn in Hp, Hq.
  repeat (destruct Hp as [<-|Hp]);
    repeat (destruct Hq as [<-|Hq]);
    try reflexivity; try contradiction; cbn in Sq; discriminate Sq.
Qed.

End TextFacts.

(** X14: columns never truncate. A row is at least as wide as the header,
    which is 97 characters wide, and exactly as wide when every cell fits
    its column (50, 15, 12, 8 and 8 characters); a longer cell pushes the
    rest of its row to the right. The separator lines are 130 characters
    wide whatever the rows are. *)
Theorem row_width (cri_models : PyDict.t) (model : ModelSummary) :
  String.length table_header = 97
  /\ String.length table_header <= String.length (table_row cri_models model)
  /\ (String.length (table_row cri_models model) = String.length table_header
      <-> Forall2 (fun cell width => String.length cell <= width)
                  (row_cells cri_models model) column_widths)
  /\ PyStr.startswith (table_row cri_models model) (get_or (modelId model) "N/A") = true
  /\ String.length (PyStr.repeat_char "=" 130) = 130.
Proof.
  assert (Hh : String.length table_header = 97) by reflexivity.
  rewrite Hh, table_row_length.
  split; [reflexivity|]. split; [lia|]. split; [|split].
  - unfold row_cells, column_widths. split.
    + intros H. repeat (constructor; [lia|]). constructor.
    + intros H.
      repeat match goal with
             | F : Forall2 _ (_ :: _) (_ :: _) |- _ => inversion_clear F
             end.
      lia.
  - unfold table_row, PyStr.ljust. rewrite !append_assoc. apply startswith_append.
  - apply repeat_char_length.
Qed.

Lemma row_width_witness :
  let model := mkModel (Some "amazon.titan-text-lite-v1") (Some "Amazon")
                       (Some ["TEXT"]) (Some ["TEXT"]) in
  String.length (table_row [] model) = String.length table_header.
Proof.
  intros model.
  apply (proj2 (proj1 (proj2 (proj2 (row_width [] model))))).
  vm_compute. repeat (constructor; [lia|]). constructor.
Defined.


(** X16: the order in which the extractor tries the routing prefixes does
    not matter: no identifier starts with two of them, so trying them in any
    other order gives the same result. *)
Theorem extract_cri_info_order_irrelevant (prefixes : list string) (profile_id : string) :
  Permutation cri_prefixes prefixes ->
  extract_cri_loop prefixes profile_id = extract_cri_info profile_id.
Proof.
  intros Hperm. unfold extract_cri_info.
  destruct (extract_cri_loop prefixes profile_id) as [t1 b1] eqn:E1.
  destruct (extract_cri_loop cri_prefixes profile_id) as [t2 b2] eqn:E2.
  apply extract_cri_loop_inverse in E1, E2.
  destruct E1 as [(-> & -> & H1)|(p & base1 & Hp & Ep & -> & ->)];
    destruct E2 as [(-> & -> & H2)|(q & base2 & Hq & Eq & -> & ->)].
  - reflexivity.
  - pose proof (startswith_append q base2) as S. rewrite <- Eq in S.
    rewrite (H1 q (Permutation_in _ Hperm Hq)) in S. discriminate S.
  - apply (Permutation_in _ (Permutation_sym Hperm)) in Hp.
    pose proof (startswith_append p base1) as S. rewrite <- Ep in S.
    rewrite (H2 p Hp) in S. discriminate S.
  - apply (Permutation_in _ (Permutation_sym Hperm)) in Hp.
    assert (p = q) as ->.
    { apply (cri_prefixes_exclusive profile_id); try assumption.
      - rewrite Ep. apply startswith_append.
      - rewrite Eq. apply startswith_append. }
    rewrite Ep in Eq. apply append_inv_head in Eq. now subst.
Qed.

Lemma extract_cri_info_order_irrelevant_witness :
  extract_cri_loop ["global."; "au."; "jp."; "eu."; "us."] "jp.anthropic.claude"
  = (Some "JP", Some "anthropic.claude").
Proof.
  apply (extract_cri_info_order_irrelevant
           ["global."; "au."; "jp."; "eu."; "us."] "jp.anthropic.claude").
  apply (Permutation_rev cri_prefixes).
Defined.
